(** * TaskFlow backend (backend/src/app.py): task resource model and CRUD contract

    A shallow embedding of the FastAPI handlers of [app.py] together with the
    pydantic request models declared there, followed by the properties of the
    specification that concern them.

    Conventions
    - a Python [str] is a sequence of Unicode code points: [list N];
    - a [datetime] is a point on a discrete time line: [Z] (microseconds);
    - [datetime.utcnow()] and [uuid.uuid4()] read the environment: their
      results are arguments of the handlers that call them;
    - the SQLAlchemy session is an explicit state ([Session]) threaded by a
      state-and-exception monad ([M]); every call that talks to the database
      may fail with the next pending fault of the session;
    - logging has no effect on the modelled state and is left out. *)

From Stdlib Require Import List ZArith NArith Bool Lia String Ascii.
Import ListNotations.

Local Open Scope Z_scope.

(* ========================================================================= *)
(** ** Python strings *)
(* ========================================================================= *)

Definition str := list N.

(** A literal of the source, written with ASCII characters. *)
Definition py (s : string) : str := List.map N_of_ascii (list_ascii_of_string s).

Definition len (s : str) : nat := List.length s.

Fixpoint str_eqb (a b : str) : bool :=
  match a, b with
  | [], [] => true
  | x :: a', y :: b' => N.eqb x y && str_eqb a' b'
  | _, _ => false
  end.

(** [Py_UNICODE_ISSPACE]: the characters [str.strip()] removes. *)
Definition isspace (c : N) : bool :=
  ((9 <=? c) && (c <=? 13) || (28 <=? c) && (c <=? 32)
   || (c =? 133) || (c =? 160) || (c =? 5760)
   || (8192 <=? c) && (c <=? 8202)
   || (c =? 8232) || (c =? 8233) || (c =? 8239) || (c =? 8287)
   || (c =? 12288))%N.

Fixpoint lstrip (s : str) : str :=
  match s with
  | [] => []
  | c :: s' => if isspace c then lstrip s' else s
  end.

Definition rstrip (s : str) : str := rev (lstrip (rev s)).

(** [s.strip()] *)
Definition strip (s : str) : str := rstrip (lstrip s).

(** [bool(s)] for a string: non-empty. *)
Definition str_truth (s : str) : bool :=
  match s with [] => false | _ :: _ => true end.

(* ========================================================================= *)
(** ** Enumerations *)
(* ========================================================================= *)

(** Modelled from the spec: [TaskStatus] is imported from [models.py], which
    is not part of the sources at hand; the specification gives its members
    as todo, in_progress, done. *)
Inductive TaskStatus := TODO | IN_PROGRESS | DONE.

(** Modelled from the spec: [TaskPriority] is imported from [models.py]; the
    specification gives its members as low, medium, high. *)
Inductive TaskPriority := LOW | MEDIUM | HIGH.

Definition TaskStatus_value (s : TaskStatus) : str :=
  match s with
  | TODO => py "todo"
  | IN_PROGRESS => py "in_progress"
  | DONE => py "done"
  end.

Definition TaskPriority_value (p : TaskPriority) : str :=
  match p with
  | LOW => py "low"
  | MEDIUM => py "medium"
  | HIGH => py "high"
  end.

(** Enum validation by value, as pydantic does for an [Enum] field: the first
    member whose value equals the input. *)
Definition enum_of_value {E : Type} (members : list E) (value : E -> str)
           (v : str) : option E :=
  find (fun m => str_eqb (value m) v) members.

Definition TaskStatus_of_value : str -> option TaskStatus :=
  enum_of_value [TODO; IN_PROGRESS; DONE] TaskStatus_value.

Definition TaskPriority_of_value : str -> option TaskPriority :=
  enum_of_value [LOW; MEDIUM; HIGH] TaskPriority_value.

Definition TaskStatus_eqb (a b : TaskStatus) : bool :=
  match a, b with
  | TODO, TODO | IN_PROGRESS, IN_PROGRESS | DONE, DONE => true
  | _, _ => false
  end.

Definition TaskPriority_eqb (a b : TaskPriority) : bool :=
  match a, b with
  | LOW, LOW | MEDIUM, MEDIUM | HIGH, HIGH => true
  | _, _ => false
  end.

(* ========================================================================= *)
(** ** Request bodies and the pydantic models *)
(* ========================================================================= *)

(** One key of a JSON object, or one field of a pydantic model together with
    the fact that it was set: the key is missing, is [null], or has a value. *)
Inductive field (A : Type) : Type :=
| Missing : field A
| Null : field A
| Value : A -> field A.
Arguments Missing {A}.
Arguments Null {A}.
Arguments Value {A} _.

(** The JSON body of POST /tasks and PUT /tasks/{task_id}, before validation.
    Values carry the JSON type the field expects; status and priority are
    still plain strings. *)
Module Body.
Record t := mk {
  title : field str;
  description : field str;
  status : field str;
  priority : field str;
  assignee : field str;
  due_date : field Z
}.
End Body.

(** [class TaskCreate(BaseModel)] *)
Module TaskCreate.
Record t := mk {
  title : str;
  description : option str;
  status : TaskStatus;
  priority : TaskPriority;
  assignee : option str;
  due_date : option Z
}.
End TaskCreate.

(** [class TaskUpdate(BaseModel)]: every field is optional, and the model
    remembers which fields were set ([model_fields_set]). *)
Module TaskUpdate.
Record t := mk {
  title : field str;
  description : field str;
  status : field TaskStatus;
  priority : field TaskPriority;
  assignee : field str;
  due_date : field Z
}.
End TaskUpdate.

(** [Field(..., min_length=lo, max_length=hi)] on a string value. *)
Definition length_ok (lo hi : nat) (s : str) : bool :=
  Nat.leb lo (len s) && Nat.leb (len s) hi.

(** A required [str] field: [Field(..., min_length, max_length)]. *)
Definition required_str (lo hi : nat) (f : field str) : option str :=
  match f with
  | Value s => if length_ok lo hi s then Some s else None
  | Missing | Null => None
  end.

(** An [Optional[str]] field with default [None] on a model that has no
    record of which fields were set. *)
Definition optional_str (lo hi : nat) (f : field str) : option (option str) :=
  match f with
  | Missing | Null => Some None
  | Value s => if length_ok lo hi s then Some (Some s) else None
  end.

(** An enum field with a default member; [null] is not a member. *)
Definition enum_default {E : Type} (of_value : str -> option E) (default : E)
           (f : field str) : option E :=
  match f with
  | Missing => Some default
  | Null => None
  | Value v => of_value v
  end.

Definition optional_datetime (f : field Z) : option (option Z) :=
  match f with
  | Missing | Null => Some None
  | Value d => Some (Some d)
  end.

(** Validation of a body against [TaskCreate]; [None] is a validation
    error. *)
Definition validate_TaskCreate (b : Body.t) : option TaskCreate.t :=
  match required_str 1 200 (Body.title b),
        optional_str 0 1000 (Body.description b),
        enum_default TaskStatus_of_value TODO (Body.status b),
        enum_default TaskPriority_of_value MEDIUM (Body.priority b),
        optional_str 0 100 (Body.assignee b),
        optional_datetime (Body.due_date b) with
  | Some t, Some d, Some s, Some p, Some a, Some dd =>
      Some (TaskCreate.mk t d s p a dd)
  | _, _, _, _, _, _ => None
  end.

(** An [Optional[...]] field of [TaskUpdate]: a missing key stays unset, an
    explicit [null] is accepted, a value is checked. *)
Definition optional_field {A B : Type} (check : A -> option B) (f : field A)
  : option (field B) :=
  match f with
  | Missing => Some Missing
  | Null => Some Null
  | Value a => match check a with
               | Some b => Some (Value b)
               | None => None
               end
  end.

Definition check_length (lo hi : nat) (s : str) : option str :=
  if length_ok lo hi s then Some s else None.

(** Validation of a body against [TaskUpdate]. *)
Definition validate_TaskUpdate (b : Body.t) : option TaskUpdate.t :=
  match optional_field (check_length 1 200) (Body.title b),
        optional_field (check_length 0 1000) (Body.description b),
        optional_field TaskStatus_of_value (Body.status b),
        optional_field TaskPriority_of_value (Body.priority b),
        optional_field (check_length 0 100) (Body.assignee b),
        optional_field (@Some Z) (Body.due_date b) with
  | Some t, Some d, Some s, Some p, Some a, Some dd =>
      Some (TaskUpdate.mk t d s p a dd)
  | _, _, _, _, _, _ => None
  end.

(** [updates.model_dump(exclude_unset=True)]: the dictionary holds exactly
    the fields that were set, so it is read through the same [field]s. *)
Definition model_dump_exclude_unset (u : TaskUpdate.t) : TaskUpdate.t := u.

(** [d.get(key)] *)
Definition dict_get {A : Type} (f : field A) : option A :=
  match f with
  | Value a => Some a
  | Missing | Null => None
  end.

(** [d.get(key, default)] *)
Definition dict_get_default {A : Type} (f : field A) (default : option A)
  : option A :=
  match f with
  | Missing => default
  | Null => None
  | Value a => Some a
  end.

(* ========================================================================= *)
(** ** The stored entity and the response model *)
(* ========================================================================= *)

(** Modelled from the spec: [TaskModel] is the ORM class of [models.py],
    which is not part of the sources at hand.  Its attributes are the ones
    [create_task] and [update_task] assign.  An attribute that the handlers
    can set to [None] is an [option]; the specification makes [id] the key of
    the store and [title], [status] and [priority] mandatory, which the store
    enforces when a change is committed ([integrity] below). *)
Module TaskModel.
Record t := mk {
  id : str;
  title : option str;
  description : option str;
  status : option TaskStatus;
  priority : option TaskPriority;
  assignee : option str;
  due_date : option Z;
  created_at : Z;
  updated_at : Z
}.
End TaskModel.

(** [class Task(BaseModel)], the response model. *)
Module Task.
Record t := mk {
  id : str;
  title : str;
  description : option str;
  status : TaskStatus;
  priority : TaskPriority;
  assignee : option str;
  due_date : option Z;
  created_at : Z;
  updated_at : Z
}.
End Task.

(** [Task.model_validate(obj)] with [from_attributes = True]: [title],
    [status] and [priority] are not optional in the response model. *)
Definition Task_from_attributes (o : TaskModel.t) : option Task.t :=
  match TaskModel.title o, TaskModel.status o, TaskModel.priority o with
  | Some t, Some s, Some p =>
      Some (Task.mk (TaskModel.id o) t (TaskModel.description o) s p
                    (TaskModel.assignee o) (TaskModel.due_date o)
                    (TaskModel.created_at o) (TaskModel.updated_at o))
  | _, _, _ => None
  end.

(** [List[Task]]: every element has to validate. *)
Fixpoint Task_list_from_attributes (l : list TaskModel.t) : option (list Task.t) :=
  match l with
  | [] => Some []
  | o :: l' =>
      match Task_from_attributes o, Task_list_from_attributes l' with
      | Some t, Some ts => Some (t :: ts)
      | _, _ => None
      end
  end.

(** [setattr(task, name, value)], one function per attribute name used. *)
Definition setattr_title (o : TaskModel.t) (v : option str) : TaskModel.t :=
  TaskModel.mk (TaskModel.id o) v (TaskModel.description o) (TaskModel.status o)
    (TaskModel.priority o) (TaskModel.assignee o) (TaskModel.due_date o)
    (TaskModel.created_at o) (TaskModel.updated_at o).

Definition setattr_description (o : TaskModel.t) (v : option str) : TaskModel.t :=
  TaskModel.mk (TaskModel.id o) (TaskModel.title o) v (TaskModel.status o)
    (TaskModel.priority o) (TaskModel.assignee o) (TaskModel.due_date o)
    (TaskModel.created_at o) (TaskModel.updated_at o).

Definition setattr_status (o : TaskModel.t) (v : option TaskStatus) : TaskModel.t :=
  TaskModel.mk (TaskModel.id o) (TaskModel.title o) (TaskModel.description o) v
    (TaskModel.priority o) (TaskModel.assignee o) (TaskModel.due_date o)
    (TaskModel.created_at o) (TaskModel.updated_at o).

Definition setattr_priority (o : TaskModel.t) (v : option TaskPriority) : TaskModel.t :=
  TaskModel.mk (TaskModel.id o) (TaskModel.title o) (TaskModel.description o)
    (TaskModel.status o) v (TaskModel.assignee o) (TaskModel.due_date o)
    (TaskModel.created_at o) (TaskModel.updated_at o).

Definition setattr_assignee (o : TaskModel.t) (v : option str) : TaskModel.t :=
  TaskModel.mk (TaskModel.id o) (TaskModel.title o) (TaskModel.description o)
    (TaskModel.status o) (TaskModel.priority o) v (TaskModel.due_date o)
    (TaskModel.created_at o) (TaskModel.updated_at o).

Definition setattr_due_date (o : TaskModel.t) (v : option Z) : TaskModel.t :=
  TaskModel.mk (TaskModel.id o) (TaskModel.title o) (TaskModel.description o)
    (TaskModel.status o) (TaskModel.priority o) (TaskModel.assignee o) v
    (TaskModel.created_at o) (TaskModel.updated_at o).

Definition setattr_updated_at (o : TaskModel.t) (v : Z) : TaskModel.t :=
  TaskModel.mk (TaskModel.id o) (TaskModel.title o) (TaskModel.description o)
    (TaskModel.status o) (TaskModel.priority o) (TaskModel.assignee o)
    (TaskModel.due_date o) (TaskModel.created_at o) v.

(* ========================================================================= *)
(** ** The database session *)
(* ========================================================================= *)

Inductive exn :=
| HTTPException (status_code : Z) (detail : str)
| RequestValidationError
| ResponseValidationError
| IntegrityError
| InvalidRequestError
| OperationalError (msg : str).

(** The table of tasks, in the order the store scans it, and the faults of
    the connection: the n-th entry is the error, if any, that the n-th
    forthcoming database call meets; past the end the store is reachable. *)
Record Session := mkSession {
  tasks : list TaskModel.t;
  faults : list (option str)
}.

(** A session on a reachable store. *)
Definition up (rows : list TaskModel.t) : Session := mkSession rows [].

Definition M (A : Type) : Type := Session -> (exn + A) * Session.

Definition ret {A : Type} (a : A) : M A := fun s => (inr a, s).

Definition raise {A : Type} (e : exn) : M A := fun s => (inl e, s).

Definition bind {A B : Type} (m : M A) (k : A -> M B) : M B :=
  fun s =>
    match m s with
    | (inr a, s') => k a s'
    | (inl e, s') => (inl e, s')
    end.

(** [try: body  except Exception as e: handler(e)] *)
Definition try_except {A : Type} (body : M A) (handler : exn -> M A) : M A :=
  fun s =>
    match body s with
    | (inr a, s') => (inr a, s')
    | (inl e, s') => handler e s'
    end.

Notation "x <- m ;; k" := (bind m (fun x => k))
  (at level 61, m at next level, right associativity).
Notation "m ;;; k" := (bind m (fun _ => k))
  (at level 61, right associativity).

(** One round trip to the database. *)
Definition execute : M unit :=
  fun s =>
    match faults s with
    | [] => (inr tt, s)
    | None :: rest => (inr tt, mkSession (tasks s) rest)
    | Some msg :: rest => (inl (OperationalError msg), mkSession (tasks s) rest)
    end.

Definition table : M (list TaskModel.t) := fun s => (inr (tasks s), s).

Definition store (rows : list TaskModel.t) : M unit :=
  fun s => (inr tt, mkSession rows (faults s)).

(** [db.query(TaskModel)] and [query.filter(criterion)]: a query is the
    conjunction of its criteria. *)
Definition Query := TaskModel.t -> bool.

Definition query : Query := fun _ => true.

Definition filter_by (q : Query) (criterion : TaskModel.t -> bool) : Query :=
  fun o => q o && criterion o.

(** Column comparisons; a comparison with a NULL column is not true. *)
Definition id_eq (v : str) (o : TaskModel.t) : bool :=
  str_eqb (TaskModel.id o) v.

Definition status_eq (v : TaskStatus) (o : TaskModel.t) : bool :=
  match TaskModel.status o with
  | Some s => TaskStatus_eqb s v
  | None => false
  end.

Definition priority_eq (v : TaskPriority) (o : TaskModel.t) : bool :=
  match TaskModel.priority o with
  | Some p => TaskPriority_eqb p v
  | None => false
  end.

Definition assignee_eq (v : str) (o : TaskModel.t) : bool :=
  match TaskModel.assignee o with
  | Some a => str_eqb a v
  | None => false
  end.

(** [query.all()], [query.first()], [query.count()] *)
Definition all (q : Query) : M (list TaskModel.t) :=
  execute ;;; rows <- table ;; ret (filter q rows).

Definition first (q : Query) : M (option TaskModel.t) :=
  execute ;;; rows <- table ;; ret (find q rows).

Definition count (q : Query) : M nat :=
  execute ;;; rows <- table ;; ret (List.length (filter q rows)).

(** Modelled from the spec: the constraints of the table declared in
    [models.py].  [title], [status] and [priority] are mandatory. *)
Definition not_null (o : TaskModel.t) : bool :=
  match TaskModel.title o, TaskModel.status o, TaskModel.priority o with
  | Some _, Some _, Some _ => true
  | _, _, _ => false
  end.

(** Modelled from the spec: [id] is the key of the table. *)
Definition key_free (rows : list TaskModel.t) (o : TaskModel.t) : bool :=
  negb (existsb (id_eq (TaskModel.id o)) rows).

(** [db.add(task); db.commit()]: the INSERT is refused when a constraint
    fails. *)
Definition add_commit (task : TaskModel.t) : M unit :=
  execute ;;;
  rows <- table ;;
  if not_null task && key_free rows task
  then store (rows ++ [task])
  else raise IntegrityError.

(** [db.commit()] after attributes of the loaded [task] were set: the UPDATE
    addresses the row by its key. *)
Definition commit (task : TaskModel.t) : M unit :=
  execute ;;;
  rows <- table ;;
  if not_null task
  then store (map (fun r => if id_eq (TaskModel.id task) r then task else r) rows)
  else raise IntegrityError.

(** [db.delete(task); db.commit()]: the DELETE addresses the row by its
    key. *)
Definition delete_commit (task : TaskModel.t) : M unit :=
  execute ;;;
  rows <- table ;;
  store (filter (fun r => negb (id_eq (TaskModel.id task) r)) rows).

(** [db.refresh(task)]: the attributes are read again from the row. *)
Definition refresh (task : TaskModel.t) : M TaskModel.t :=
  execute ;;;
  rows <- table ;;
  match find (id_eq (TaskModel.id task)) rows with
  | Some r => ret r
  | None => raise InvalidRequestError
  end.

(* ========================================================================= *)
(** ** Endpoints *)
(* ========================================================================= *)

(** The dictionaries returned by [health_check]:
    [{"status": "healthy", "tasks_count": n}] and
    [{"status": "unhealthy", "database": str(e)}], the latter keeping the
    exception whose text is reported. *)
Inductive Health :=
| healthy (tasks_count : nat)
| unhealthy (database : exn).

(** [async def health_check(db)] *)
Definition health_check : M Health :=
  try_except
    (execute ;;;
     tasks_count <- count query ;;
     ret (healthy tasks_count))
    (fun e => ret (unhealthy e)).

(** [if value: query = query.filter(criterion)]: the filter is added when the
    parameter is truthy. *)
Definition filter_if {A : Type} (truth : A -> bool) (value : option A)
           (criterion : A -> TaskModel.t -> bool) (q : Query) : Query :=
  match value with
  | Some v => if truth v then filter_by q (criterion v) else q
  | None => q
  end.

(** [bool(member)] for a member of [TaskStatus] or [TaskPriority]: every
    member is truthy (its value is a non-empty string). *)
Definition enum_truth {E : Type} (_ : E) : bool := true.

(** [async def get_tasks(status, priority, assignee, db)] *)
Definition get_tasks (status : option TaskStatus) (priority : option TaskPriority)
           (assignee : option str) : M (list TaskModel.t) :=
  let q := query in
  let q := filter_if enum_truth status status_eq q in
  let q := filter_if enum_truth priority priority_eq q in
  let q := filter_if str_truth assignee assignee_eq q in
  all q.

(** [f"Task {task_id} not found"] *)
Definition not_found (task_id : str) : exn :=
  HTTPException 404 (py "Task " ++ task_id ++ py " not found").

Definition title_empty : exn :=
  HTTPException 422 (py "Title cannot be empty").

(** [async def get_task(task_id, db)] *)
Definition get_task (task_id : str) : M TaskModel.t :=
  task <- first (filter_by query (id_eq task_id)) ;;
  match task with
  | None => raise (not_found task_id)
  | Some task => ret task
  end.

(** [async def create_task(task_data, db)]; [now] is what
    [datetime.utcnow()] returns and [uuid4] what [str(uuid.uuid4())]
    returns. *)
Definition create_task (task_data : TaskCreate.t) (now : Z) (uuid4 : str)
  : M TaskModel.t :=
  if negb (str_truth (TaskCreate.title task_data))
     || negb (str_truth (strip (TaskCreate.title task_data)))
  then raise title_empty
  else
    let task :=
      TaskModel.mk uuid4
        (Some (TaskCreate.title task_data))
        (TaskCreate.description task_data)
        (Some (TaskCreate.status task_data))
        (Some (TaskCreate.priority task_data))
        (TaskCreate.assignee task_data)
        (TaskCreate.due_date task_data)
        now now in
    add_commit task ;;;
    task <- refresh task ;;
    ret task.

(** [fields_to_update.get("title") == EMPTY], where EMPTY is the empty string
    literal. *)
Definition is_empty_string (v : option str) : bool :=
  match v with
  | Some s => str_eqb s []
  | None => false
  end.

(** [async def update_task(task_id, updates, db)]; [now] is what
    [datetime.utcnow()] returns. *)
Definition update_task (task_id : str) (updates : TaskUpdate.t) (now : Z)
  : M TaskModel.t :=
  task <- first (filter_by query (id_eq task_id)) ;;
  match task with
  | None => raise (not_found task_id)
  | Some task =>
      let fields_to_update := model_dump_exclude_unset updates in
      if is_empty_string (dict_get (TaskUpdate.title fields_to_update))
      then raise title_empty
      else
        let task := setattr_title task
          (dict_get_default (TaskUpdate.title fields_to_update) (TaskModel.title task)) in
        let task := setattr_description task
          (dict_get_default (TaskUpdate.description fields_to_update) (TaskModel.description task)) in
        let task := setattr_status task
          (dict_get_default (TaskUpdate.status fields_to_update) (TaskModel.status task)) in
        let task := setattr_priority task
          (dict_get_default (TaskUpdate.priority fields_to_update) (TaskModel.priority task)) in
        let task := setattr_assignee task
          (dict_get_default (TaskUpdate.assignee fields_to_update) (TaskModel.assignee task)) in
        let task := setattr_due_date task
          (dict_get_default (TaskUpdate.due_date fields_to_update) (TaskModel.due_date task)) in
        let task := setattr_updated_at task now in
        commit task ;;;
        task <- refresh task ;;
        ret task
  end.

(** [async def delete_task(task_id, db)] *)
Definition delete_task (task_id : str) : M unit :=
  task <- first (filter_by query (id_eq task_id)) ;;
  match task with
  | None => raise (not_found task_id)
  | Some task => delete_commit task ;;; ret tt
  end.

(* ========================================================================= *)
(** ** Routes: what FastAPI does around an endpoint *)
(* ========================================================================= *)

Inductive outcome (A : Type) : Type :=
| Ok (status_code : Z) (content : A)
| Failed (status_code : Z) (e : exn).
Arguments Ok {A} _ _.
Arguments Failed {A} _ _.

(** An [HTTPException] carries its status; a body that does not validate is
    answered 422; any other exception is an internal server error. *)
Definition status_of_exn (e : exn) : Z :=
  match e with
  | HTTPException status_code _ => status_code
  | RequestValidationError => 422
  | _ => 500
  end.

(** Run an endpoint and pass its result through the response model. *)
Definition respond {A B : Type} (status_code : Z) (response_model : A -> option B)
           (endpoint : M A) (s : Session) : outcome B * Session :=
  match endpoint s with
  | (inr a, s') =>
      match response_model a with
      | Some b => (Ok status_code b, s')
      | None => (Failed 500 ResponseValidationError, s')
      end
  | (inl e, s') => (Failed (status_of_exn e) e, s')
  end.

(** [@app.get("/health")] *)
Definition GET_health : Session -> outcome Health * Session :=
  respond 200 (@Some Health) health_check.

(** [@app.get("/tasks", response_model=List[Task])]; the query parameters
    have been parsed. *)
Definition GET_tasks (status : option TaskStatus) (priority : option TaskPriority)
           (assignee : option str) : Session -> outcome (list Task.t) * Session :=
  respond 200 Task_list_from_attributes (get_tasks status priority assignee).

(** [@app.get("/tasks/{task_id}", response_model=Task)] *)
Definition GET_task (task_id : str) : Session -> outcome Task.t * Session :=
  respond 200 Task_from_attributes (get_task task_id).

(** [@app.post("/tasks", response_model=Task, status_code=201)]: the body is
    validated against [TaskCreate] before the endpoint runs. *)
Definition POST_tasks (body : Body.t) (now : Z) (uuid4 : str)
  : Session -> outcome Task.t * Session :=
  match validate_TaskCreate body with
  | Some task_data => respond 201 Task_from_attributes (create_task task_data now uuid4)
  | None => fun s => (Failed 422 RequestValidationError, s)
  end.

(** [@app.put("/tasks/{task_id}", response_model=Task)]: the body is
    validated against [TaskUpdate] before the endpoint runs. *)
Definition PUT_task (task_id : str) (body : Body.t) (now : Z)
  : Session -> outcome Task.t * Session :=
  match validate_TaskUpdate body with
  | Some updates => respond 200 Task_from_attributes (update_task task_id updates now)
  | None => fun s => (Failed 422 RequestValidationError, s)
  end.

(** [@app.delete("/tasks/{task_id}", status_code=204)] *)
Definition DELETE_task (task_id : str) : Session -> outcome unit * Session :=
  respond 204 (@Some unit) (delete_task task_id).

(* ========================================================================= *)
(** ** Histories of the store *)
(* ========================================================================= *)

Inductive request :=
| Health_request
| List_request (status : option TaskStatus) (priority : option TaskPriority)
               (assignee : option str)
| Get_request (task_id : str)
| Create_request (body : Body.t) (now : Z) (uuid4 : str)
| Update_request (task_id : str) (body : Body.t) (now : Z)
| Delete_request (task_id : str).

(** The session a request leaves behind. *)
Definition serve (s : Session) (r : request) : Session :=
  match r with
  | Health_request => snd (GET_health s)
  | List_request status priority assignee => snd (GET_tasks status priority assignee s)
  | Get_request task_id => snd (GET_task task_id s)
  | Create_request body now uuid4 => snd (POST_tasks body now uuid4 s)
  | Update_request task_id body now => snd (PUT_task task_id body now s)
  | Delete_request task_id => snd (DELETE_task task_id s)
  end.

Definition run (history : list request) (s : Session) : Session :=
  fold_left serve history s.

(** A state of the table is reachable when some history of requests, met by
    some schedule of connection faults, leads to it from the empty table. *)
Definition reachable (rows : list TaskModel.t) : Prop :=
  exists (history : list request) (f : list (option str)),
    tasks (run history (mkSession [] f)) = rows.

(** The readings of the clock offered to the requests of a history. *)
Definition clock (r : request) : list Z :=
  match r with
  | Create_request _ now _ => [now]
  | Update_request _ _ now => [now]
  | _ => []
  end.

Fixpoint never_before (lo : Z) (readings : list Z) : bool :=
  match readings with
  | [] => true
  | t :: rest => (lo <=? t) && never_before t rest
  end.

(** The clock never goes back during the history. *)
Definition clock_monotone (history : list request) : bool :=
  match flat_map clock history with
  | [] => true
  | t :: rest => never_before t rest
  end.

(** A string that is empty or consists of white space only. *)
Definition blank (s : str) : bool := negb (str_truth (strip s)).

Definition ids (rows : list TaskModel.t) : list str := map TaskModel.id rows.

(* ========================================================================= *)
(** ** Configuration read when the module is loaded *)
(* ========================================================================= *)

(** [s.split(sep)] for a separator [sep] of one character: the pieces
    between the occurrences of the separator, empty pieces included. *)
Fixpoint split (sep : N) (s : str) : list str :=
  match s with
  | [] => [[]]
  | c :: s' =>
      if N.eqb c sep then [] :: split sep s'
      else match split sep s' with
           | piece :: pieces => (c :: piece) :: pieces
           | [] => [[c]]
           end
  end.

(** [os.getenv(name, default)], given the value of the variable when it is
    set. *)
Definition getenv (value : option str) (default : str) : str :=
  match value with
  | Some v => v
  | None => default
  end.

(** The character [,]. *)
Definition comma : N := 44%N.

(** [cors_origins], as computed from the environment variable
    [CORS_ORIGINS]:
    [cors_origins_str = os.getenv("CORS_ORIGINS", "http://localhost:5173")]
    [cors_origins = [origin.strip() for origin in cors_origins_str.split(",")]] *)
Definition cors_origins (CORS_ORIGINS : option str) : list str :=
  let cors_origins_str := getenv CORS_ORIGINS (py "http://localhost:5173") in
  map strip (split comma cors_origins_str).

(* ========================================================================= *)
(** ** Vocabulary of the properties *)
(* ========================================================================= *)

(** Some row of the table has this id. *)
Definition known (task_id : str) (rows : list TaskModel.t) : bool :=
  existsb (id_eq task_id) rows.

(** The record meets every supplied equality filter. *)
Definition satisfies (status : option TaskStatus) (priority : option TaskPriority)
           (assignee : option str) (o : TaskModel.t) : bool :=
  match status with Some v => status_eq v o | None => true end
  && match priority with Some v => priority_eq v o | None => true end
  && match assignee with Some v => assignee_eq v o | None => true end.

(** The assignee filter that [get_tasks] acts on: an empty string counts as
    no filter. *)
Definition effective (assignee : option str) : option str :=
  match assignee with
  | Some [] => None
  | other => other
  end.

(** The first fault among the next [n] database calls. *)
Fixpoint next_fault (n : nat) (f : list (option str)) : option str :=
  match n, f with
  | S _, Some msg :: _ => Some msg
  | S n', None :: f' => next_fault n' f'
  | _, _ => None
  end.

(** The body of a request with another title. *)
Definition with_title (b : Body.t) (title : field str) : Body.t :=
  Body.mk title (Body.description b) (Body.status b) (Body.priority b)
          (Body.assignee b) (Body.due_date b).

(** The title of a body is absent ([Missing] or [Null]), empty, or white
    space only. *)
Definition title_absent_or_blank (b : Body.t) : bool :=
  match Body.title b with
  | Missing | Null => true
  | Value s => blank s
  end.

(** The mandatory attributes of a stored task are present and its title is
    not the empty string. *)
Definition well_formed (o : TaskModel.t) : Prop :=
  (exists s, TaskModel.title o = Some s /\ s <> [] /\ (len s <= 200)%nat)
  /\ TaskModel.status o <> None
  /\ TaskModel.priority o <> None.

(** The title of a stored task is neither empty nor white space only. *)
Definition title_not_blank (o : TaskModel.t) : Prop :=
  exists s, TaskModel.title o = Some s /\ blank s = false.

Definition timestamps_ordered (o : TaskModel.t) : Prop :=
  TaskModel.created_at o <= TaskModel.updated_at o.

(** The invariants of the data model, as the specification words them. *)
Definition store_invariants (rows : list TaskModel.t) : Prop :=
  NoDup (ids rows)
  /\ Forall title_not_blank rows
  /\ Forall (fun o => TaskModel.status o <> None /\ TaskModel.priority o <> None) rows
  /\ Forall timestamps_ordered rows.

(** The attributes [update_task] has assigned to the loaded record [o] when
    it commits. *)
Definition updated (o : TaskModel.t) (u : TaskUpdate.t) (now : Z) : TaskModel.t :=
  TaskModel.mk (TaskModel.id o)
    (dict_get_default (TaskUpdate.title u) (TaskModel.title o))
    (dict_get_default (TaskUpdate.description u) (TaskModel.description o))
    (dict_get_default (TaskUpdate.status u) (TaskModel.status o))
    (dict_get_default (TaskUpdate.priority u) (TaskModel.priority o))
    (dict_get_default (TaskUpdate.assignee u) (TaskModel.assignee o))
    (dict_get_default (TaskUpdate.due_date u) (TaskModel.due_date o))
    (TaskModel.created_at o) now.

(** The table after the row with the key of [o] was rewritten. *)
Definition rewritten (rows : list TaskModel.t) (o : TaskModel.t) : list TaskModel.t :=
  map (fun r => if id_eq (TaskModel.id o) r then o else r) rows.

(** The record [create_task] adds. *)
Definition created (task_data : TaskCreate.t) (now : Z) (uuid4 : str) : TaskModel.t :=
  TaskModel.mk uuid4
    (Some (TaskCreate.title task_data))
    (TaskCreate.description task_data)
    (Some (TaskCreate.status task_data))
    (Some (TaskCreate.priority task_data))
    (TaskCreate.assignee task_data)
    (TaskCreate.due_date task_data)
    now now.

(** A computation that leaves the table as it is, whatever it returns. *)
Definition read_only {A : Type} (m : M A) : Prop :=
  forall s, tasks (snd (m s)) = tasks s.

(** Every stored task was last written no later than [lo]. *)
Definition written_by (lo : Z) (rows : list TaskModel.t) : Prop :=
  Forall (fun o => timestamps_ordered o /\ TaskModel.updated_at o <= lo) rows.

(** The part of the invariants that holds in every reachable state whatever
    the clock does: ids are unique and the mandatory attributes are there. *)
Definition consistent (rows : list TaskModel.t) : Prop :=
  NoDup (ids rows) /\ Forall well_formed rows.

(** The string begins with a white space character. *)
Definition leading_space (s : str) : bool :=
  match s with
  | c :: _ => isspace c
  | [] => false
  end.

(** Neither end of the string is a white space character. *)
Definition trimmed (s : str) : Prop :=
  leading_space s = false /\ leading_space (rev s) = false.

(** The number of occurrences of a character in a string. *)
Fixpoint occurrences (c : N) (s : str) : nat :=
  match s with
  | [] => 0%nat
  | x :: s' => ((if N.eqb x c then 1 else 0) + occurrences c s')%nat
  end.

(** The id a request writes under, if it writes at all. *)
Definition target (r : request) : option str :=
  match r with
  | Create_request _ _ uuid4 => Some uuid4
  | Update_request task_id _ _ => Some task_id
  | Delete_request task_id => Some task_id
  | _ => None
  end.

(** A returned task with another time of last update. *)
Definition touched (t : Task.t) (now : Z) : Task.t :=
  Task.mk (Task.id t) (Task.title t) (Task.description t) (Task.status t)
          (Task.priority t) (Task.assignee t) (Task.due_date t)
          (Task.created_at t) now.


(* ========================================================================= *)
(** ** Strings *)
(* ========================================================================= *)

Lemma str_eqb_eq (a b : str) : str_eqb a b = true <-> a = b.
Proof.
  revert b; induction a as [|x a IH]; intros [|y b]; simpl; split;
    try congruence; try reflexivity.
  - intros H. apply andb_true_iff in H as [Hx Ha].
    apply N.eqb_eq in Hx. apply IH in Ha. congruence.
  - intros H. injection H as -> ->.
    apply andb_true_iff; split; [apply N.eqb_refl | now apply IH].
Qed.

Lemma str_eqb_refl (a : str) : str_eqb a a = true.
Proof. now apply str_eqb_eq. Qed.

Lemma lstrip_nil_iff (s : str) : lstrip s = [] <-> forallb isspace s = true.
Proof.
  induction s as [|c s IH]; simpl; [tauto|].
  destruct (isspace c); simpl; [exact IH|].
  split; discriminate.
Qed.

Lemma lstrip_head (s : str) :
  lstrip s = [] \/ exists c r, lstrip s = c :: r /\ isspace c = false.
Proof.
  induction s as [|c s IH]; simpl; [now left|].
  destruct (isspace c) eqn:E; [exact IH|].
  right. now exists c, s.
Qed.

Lemma forallb_rev {A : Type} (p : A -> bool) (l : list A) :
  forallb p (rev l) = forallb p l.
Proof.
  induction l as [|a l IH]; simpl; [reflexivity|].
  rewrite forallb_app, IH. simpl. rewrite andb_true_r. apply andb_comm.
Qed.

(** After trimming nothing is left exactly when every character is white
    space. *)
Lemma blank_iff (s : str) : blank s = true <-> forallb isspace s = true.
Proof.
  unfold blank, strip, rstrip.
  assert (E : forall l : str, negb (str_truth l) = true <-> l = []).
  { intros [|? ?]; simpl; split; congruence. }
  rewrite E. split.
  - intros H. apply (f_equal (@rev N)) in H. rewrite rev_involutive in H.
    simpl in H. apply lstrip_nil_iff in H. rewrite forallb_rev in H.
    destruct (lstrip_head s) as [H0|(c & r & H0 & Hc)].
    + now apply lstrip_nil_iff.
    + rewrite H0 in H. simpl in H. now rewrite Hc in H.
  - intros H. apply lstrip_nil_iff in H. rewrite H. reflexivity.
Qed.

(* ========================================================================= *)
(** ** Rows and keys *)
(* ========================================================================= *)

Lemma known_In (task_id : str) (rows : list TaskModel.t) :
  known task_id rows = true <-> In task_id (ids rows).
Proof.
  unfold known, ids. rewrite existsb_exists, in_map_iff. split.
  - intros (o & Hin & Heq). apply str_eqb_eq in Heq. now exists o.
  - intros (o & Heq & Hin). exists o. split; [exact Hin|].
    now apply str_eqb_eq.
Qed.

Lemma unknown_not_In (task_id : str) (rows : list TaskModel.t) :
  known task_id rows = false <-> ~ In task_id (ids rows).
Proof.
  rewrite <- known_In. destruct (known task_id rows); split; congruence.
Qed.

Lemma find_id_known (task_id : str) (rows : list TaskModel.t) :
  known task_id rows = true ->
  exists o, find (id_eq task_id) rows = Some o /\ TaskModel.id o = task_id /\ In o rows.
Proof.
  intros H. destruct (find (id_eq task_id) rows) as [o|] eqn:E.
  - exists o. apply find_some in E as [Hin Heq]. apply str_eqb_eq in Heq. auto.
  - apply existsb_exists in H as (o & Hin & Heq).
    apply (find_none _ _ E) in Hin. congruence.
Qed.

Lemma find_id_unknown (task_id : str) (rows : list TaskModel.t) :
  known task_id rows = false -> find (id_eq task_id) rows = None.
Proof.
  intros H. destruct (find (id_eq task_id) rows) as [o|] eqn:E; [|reflexivity].
  apply find_some in E as [Hin Heq].
  assert (known task_id rows = true) by (apply existsb_exists; eauto).
  congruence.
Qed.

Lemma find_query_id (task_id : str) (rows : list TaskModel.t) :
  find (filter_by query (id_eq task_id)) rows = find (id_eq task_id) rows.
Proof. reflexivity. Qed.

Lemma filter_query (rows : list TaskModel.t) : filter query rows = rows.
Proof.
  induction rows as [|o rows IH]; simpl; [reflexivity|]. now rewrite IH.
Qed.

Lemma known_after_delete (task_id : str) (rows : list TaskModel.t) :
  known task_id (filter (fun r => negb (id_eq task_id r)) rows) = false.
Proof.
  unfold known. induction rows as [|o rows IH]; simpl; [reflexivity|].
  destruct (id_eq task_id o) eqn:E; simpl; [exact IH|].
  now rewrite E, IH.
Qed.

(* ========================================================================= *)
(** ** What the endpoints compute on a reachable store *)
(* ========================================================================= *)

Lemma first_up (q : Query) (rows : list TaskModel.t) :
  first q (up rows) = (inr (find q rows), up rows).
Proof. reflexivity. Qed.

Lemma all_up (q : Query) (rows : list TaskModel.t) :
  all q (up rows) = (inr (filter q rows), up rows).
Proof. reflexivity. Qed.

Lemma get_task_up (task_id : str) (rows : list TaskModel.t) :
  get_task task_id (up rows) =
  match find (id_eq task_id) rows with
  | Some o => (inr o, up rows)
  | None => (inl (not_found task_id), up rows)
  end.
Proof.
  unfold get_task, bind. rewrite first_up, find_query_id.
  now destruct (find (id_eq task_id) rows).
Qed.

Lemma delete_task_up (task_id : str) (rows : list TaskModel.t) :
  delete_task task_id (up rows) =
  match find (id_eq task_id) rows with
  | Some o => (inr tt, up (filter (fun r => negb (id_eq (TaskModel.id o) r)) rows))
  | None => (inl (not_found task_id), up rows)
  end.
Proof.
  unfold delete_task, bind. rewrite first_up, find_query_id.
  now destruct (find (id_eq task_id) rows).
Qed.

(** C8.  Deleting an existing id answers 204 with no content and removes the
    record: no row with that id is left and a following Get on the same id
    answers 404.  Deleting an id that no row has answers 404 and leaves the
    table as it was. *)
Theorem delete_task_removes_record (task_id : str) (rows : list TaskModel.t) :
  (known task_id rows = true ->
   let rows' := filter (fun r => negb (id_eq task_id r)) rows in
   DELETE_task task_id (up rows) = (Ok 204 tt, up rows')
   /\ ~ In task_id (ids rows')
   /\ GET_task task_id (up rows') = (Failed 404 (not_found task_id), up rows'))
  /\ (known task_id rows = false ->
      DELETE_task task_id (up rows) = (Failed 404 (not_found task_id), up rows)
      /\ GET_task task_id (up rows) = (Failed 404 (not_found task_id), up rows)).
Proof.
  split.
  - intros Hk rows'.
    destruct (find_id_known _ _ Hk) as (o & Hfind & Hid & _).
    assert (Hgone : known task_id rows' = false) by apply known_after_delete.
    repeat split.
    + unfold DELETE_task, respond. rewrite delete_task_up, Hfind, Hid.
      reflexivity.
    + now apply unknown_not_In.
    + unfold GET_task, respond.
      rewrite get_task_up, (find_id_unknown _ _ Hgone). reflexivity.
  - intros Hk. split.
    + unfold DELETE_task, respond.
      rewrite delete_task_up, (find_id_unknown _ _ Hk). reflexivity.
    + unfold GET_task, respond.
      rewrite get_task_up, (find_id_unknown _ _ Hk). reflexivity.
Qed.

(** C8 on a store with one task: deleting it, reading it afterwards, and
    deleting an id that is not there. *)
Lemma delete_task_removes_record_example :
  let o := TaskModel.mk (py "u1") (Some (py "Report")) None (Some TODO)
                        (Some MEDIUM) None None 10 10 in
  DELETE_task (py "u1") (up [o]) = (Ok 204 tt, up [])
  /\ GET_task (py "u1") (up []) = (Failed 404 (not_found (py "u1")), up [])
  /\ DELETE_task (py "u2") (up [o]) = (Failed 404 (not_found (py "u2")), up [o]).
Proof.
  intros o.
  destruct (delete_task_removes_record (py "u1") [o]) as [H _].
  destruct (delete_task_removes_record (py "u2") [o]) as [_ H'].
  specialize (H eq_refl). specialize (H' eq_refl).
  cbn zeta in H. destruct H as (H1 & _ & H2). destruct H' as [H3 _].
  split; [exact H1 | split; [exact H2 | exact H3]].
Defined.

(** C9.  The health check always answers 200 and never raises: with no fault
    on its two database calls it reports healthy with the number of rows of
    the table; otherwise it reports unhealthy with the error it met.  It
    leaves the table as it was. *)
Theorem health_check_degrades (s : Session) :
  fst (GET_health s) =
    Ok 200 match next_fault 2 (faults s) with
           | None => healthy (List.length (tasks s))
           | Some msg => unhealthy (OperationalError msg)
           end
  /\ tasks (snd (GET_health s)) = tasks s.
Proof.
  destruct s as [rows f].
  destruct f as [|[msg|] [|[msg'|] f]]; simpl;
    unfold GET_health, respond, health_check, try_except, bind, count, bind,
      execute, table, ret; simpl; rewrite ?filter_query; split; reflexivity.
Qed.

(** C10.  An assignee filter supplied as the empty string is not applied: the
    request is answered as the same request without an assignee filter, and
    with no other filter every record is returned whatever its assignee. *)
Theorem get_tasks_empty_assignee_ignored
        (status : option TaskStatus) (priority : option TaskPriority) (s : Session) :
  GET_tasks status priority (Some []) s = GET_tasks status priority None s
  /\ get_tasks None None (Some []) (up (tasks s)) = (inr (tasks s), up (tasks s)).
Proof.
  split; [reflexivity|].
  unfold get_tasks. cbn [filter_if str_truth]. rewrite all_up.
  now rewrite filter_query.
Qed.

Lemma filter_if_satisfies (status : option TaskStatus) (priority : option TaskPriority)
      (assignee : option str) (o : TaskModel.t) :
  filter_if str_truth assignee assignee_eq
    (filter_if enum_truth priority priority_eq
       (filter_if enum_truth status status_eq query)) o
  = satisfies status priority (effective assignee) o.
Proof.
  unfold satisfies, filter_if, filter_by, query, enum_truth, effective.
  destruct status, priority, assignee as [[|c a]|]; simpl;
    rewrite ?andb_true_r; reflexivity.
Qed.

Lemma get_tasks_up (status : option TaskStatus) (priority : option TaskPriority)
      (assignee : option str) (rows : list TaskModel.t) :
  get_tasks status priority assignee (up rows)
  = (inr (filter (satisfies status priority (effective assignee)) rows), up rows).
Proof.
  unfold get_tasks. rewrite all_up. f_equal. f_equal.
  apply filter_ext. intros o. apply filter_if_satisfies.
Qed.

Lemma Task_list_from_attributes_total (l : list TaskModel.t) :
  Forall (fun o => not_null o = true) l ->
  exists ts, Task_list_from_attributes l = Some ts /\ List.length ts = List.length l.
Proof.
  induction 1 as [|o l Ho _ (ts & IH & Hlen)]; simpl; [now exists []|].
  unfold not_null in Ho. unfold Task_from_attributes.
  destruct (TaskModel.title o), (TaskModel.status o), (TaskModel.priority o);
    try discriminate.
  rewrite IH. eexists; split; [reflexivity|]. simpl. now rewrite Hlen.
Qed.

Lemma Forall_filter {A : Type} (P : A -> Prop) (p : A -> bool) (l : list A) :
  Forall P l -> Forall P (filter p l).
Proof.
  rewrite !Forall_forall. intros H a Ha. apply filter_In in Ha. now apply H.
Qed.

(** C7, as amended.  The records [get_tasks] returns are exactly the rows
    that meet every supplied filter, taken conjunctively, where an assignee
    filter counts as supplied only when it is a non-empty string; with no
    filter all rows are returned; when no row matches the answer is 200 with
    an empty sequence; and on a table whose mandatory attributes are present
    the answer is always 200. *)
Theorem get_tasks_conjunctive_filters
        (status : option TaskStatus) (priority : option TaskPriority)
        (assignee : option str) (rows : list TaskModel.t) :
  let matching := filter (satisfies status priority (effective assignee)) rows in
  get_tasks status priority assignee (up rows) = (inr matching, up rows)
  /\ (forall o, In o matching <->
                In o rows /\ satisfies status priority (effective assignee) o = true)
  /\ get_tasks None None None (up rows) = (inr rows, up rows)
  /\ (matching = [] ->
      GET_tasks status priority assignee (up rows) = (Ok 200 [], up rows))
  /\ (Forall (fun o => not_null o = true) rows ->
      exists ts, GET_tasks status priority assignee (up rows) = (Ok 200 ts, up rows)
                 /\ Task_list_from_attributes matching = Some ts).
Proof.
  intros matching. split; [apply get_tasks_up|].
  split; [intros o; apply filter_In|].
  split; [rewrite get_tasks_up; simpl; now rewrite filter_query|].
  split.
  - intros Hnone. unfold GET_tasks, respond. rewrite get_tasks_up.
    fold matching. rewrite Hnone. reflexivity.
  - intros Hrows.
    destruct (Task_list_from_attributes_total matching) as (ts & Hts & _).
    { now apply Forall_filter. }
    exists ts. split; [|exact Hts].
    unfold GET_tasks, respond. rewrite get_tasks_up. fold matching.
    now rewrite Hts.
Qed.

(** C7 on a store with two tasks: a pair of filters that no task meets, and
    a pair that one task meets. *)
Lemma get_tasks_conjunctive_filters_example :
  let a := TaskModel.mk (py "u1") (Some (py "Sample 1")) None (Some TODO)
                        (Some LOW) None None 10 10 in
  let b := TaskModel.mk (py "u2") (Some (py "Sample 3")) None (Some DONE)
                        (Some HIGH) (Some (py "bob")) None 11 11 in
  GET_tasks (Some TODO) (Some HIGH) None (up [a; b]) = (Ok 200 [], up [a; b])
  /\ exists ts, GET_tasks (Some DONE) None (Some (py "bob")) (up [a; b])
                = (Ok 200 ts, up [a; b])
                /\ List.length ts = 1%nat.
Proof.
  intros a b.
  destruct (get_tasks_conjunctive_filters (Some TODO) (Some HIGH) None [a; b])
    as (_ & _ & _ & Hempty & _).
  destruct (get_tasks_conjunctive_filters (Some DONE) None (Some (py "bob")) [a; b])
    as (_ & _ & _ & _ & Hall).
  split; [exact (Hempty eq_refl)|].
  destruct Hall as (ts & Hts & Hmatch).
  { repeat constructor. }
  exists ts. split; [exact Hts|].
  vm_compute in Hmatch. injection Hmatch as <-. reflexivity.
Defined.

(** C7, as the specification words it, fails: an assignee filter supplied as
    the empty string does not constrain the result, so a record whose
    assignee is another string is returned although it does not meet the
    filter. *)
Lemma get_tasks_empty_assignee_not_a_constraint :
  let o := TaskModel.mk (py "u1") (Some (py "Report")) None (Some TODO)
                        (Some MEDIUM) (Some (py "bob")) None 10 10 in
  satisfies None None (Some []) o = false
  /\ get_tasks None None (Some []) (up [o]) = (inr [o], up [o])
  /\ exists t, GET_tasks None None (Some []) (up [o]) = (Ok 200 [t], up [o])
               /\ Task.assignee t = Some (py "bob").
Proof.
  intros o. split; [reflexivity|]. split; [reflexivity|].
  eexists. split; reflexivity.
Qed.

Lemma find_appended (o : TaskModel.t) (rows : list TaskModel.t) :
  known (TaskModel.id o) rows = false ->
  find (id_eq (TaskModel.id o)) (rows ++ [o]) = Some o.
Proof.
  unfold known. induction rows as [|r rows IH]; simpl.
  - intros _. unfold id_eq. now rewrite str_eqb_refl.
  - destruct (id_eq (TaskModel.id o) r); simpl; [discriminate | exact IH].
Qed.

Lemma find_rewritten (task_id : str) (rows : list TaskModel.t) (o n : TaskModel.t) :
  find (id_eq task_id) rows = Some o ->
  TaskModel.id n = TaskModel.id o ->
  find (id_eq (TaskModel.id n)) (rewritten rows n) = Some n.
Proof.
  intros Hfind Hid.
  assert (Ho : TaskModel.id o = task_id).
  { apply find_some in Hfind as [_ H]. now apply str_eqb_eq in H. }
  rewrite Hid, Ho. revert Hfind.
  unfold rewritten. rewrite Hid, Ho.
  induction rows as [|r rows IH]; simpl; [discriminate|].
  destruct (id_eq task_id r) eqn:E; simpl.
  - intros _. unfold id_eq. now rewrite Hid, Ho, str_eqb_refl.
  - rewrite E. exact IH.
Qed.

Lemma create_task_up (task_data : TaskCreate.t) (now : Z) (uuid4 : str)
      (rows : list TaskModel.t) :
  create_task task_data now uuid4 (up rows) =
  if negb (str_truth (TaskCreate.title task_data)) || blank (TaskCreate.title task_data)
  then (inl title_empty, up rows)
  else if known uuid4 rows
       then (inl IntegrityError, up rows)
       else (inr (created task_data now uuid4),
             up (rows ++ [created task_data now uuid4])).
Proof.
  unfold create_task, blank.
  destruct (negb (str_truth (TaskCreate.title task_data))
            || negb (str_truth (strip (TaskCreate.title task_data)))); [reflexivity|].
  fold (created task_data now uuid4).
  unfold bind, add_commit, refresh, bind, execute, table, store, raise, ret, up.
  cbn [faults tasks]. unfold key_free, not_null. cbn [created TaskModel.id
    TaskModel.title TaskModel.status TaskModel.priority andb].
  fold (known uuid4 rows).
  destruct (known uuid4 rows) eqn:Hk; cbn [negb tasks faults]; [reflexivity|].
  change uuid4 with (TaskModel.id (created task_data now uuid4)) at 1.
  rewrite find_appended; [reflexivity | exact Hk].
Qed.

Lemma update_task_up (task_id : str) (u : TaskUpdate.t) (now : Z)
      (rows : list TaskModel.t) :
  update_task task_id u now (up rows) =
  match find (id_eq task_id) rows with
  | None => (inl (not_found task_id), up rows)
  | Some o =>
      if is_empty_string (dict_get (TaskUpdate.title u))
      then (inl title_empty, up rows)
      else if not_null (updated o u now)
           then (inr (updated o u now), up (rewritten rows (updated o u now)))
           else (inl IntegrityError, up rows)
  end.
Proof.
  unfold update_task, bind at 1. rewrite first_up, find_query_id.
  destruct (find (id_eq task_id) rows) as [o|] eqn:Hfind; [|reflexivity].
  unfold model_dump_exclude_unset.
  destruct (is_empty_string (dict_get (TaskUpdate.title u))); [reflexivity|].
  change (setattr_updated_at _ now) with (updated o u now).
  unfold bind, commit, refresh, bind, execute, table, store, raise, ret, up.
  cbn [faults tasks].
  destruct (not_null (updated o u now)); [|reflexivity].
  cbn [tasks faults]. fold (rewritten rows (updated o u now)).
  rewrite (find_rewritten task_id rows o); [reflexivity | exact Hfind | reflexivity].
Qed.

(* ========================================================================= *)
(** ** Validation of request bodies *)
(* ========================================================================= *)

Lemma validate_TaskCreate_Some (b : Body.t) (td : TaskCreate.t) :
  validate_TaskCreate b = Some td <->
  required_str 1 200 (Body.title b) = Some (TaskCreate.title td)
  /\ optional_str 0 1000 (Body.description b) = Some (TaskCreate.description td)
  /\ enum_default TaskStatus_of_value TODO (Body.status b) = Some (TaskCreate.status td)
  /\ enum_default TaskPriority_of_value MEDIUM (Body.priority b) = Some (TaskCreate.priority td)
  /\ optional_str 0 100 (Body.assignee b) = Some (TaskCreate.assignee td)
  /\ optional_datetime (Body.due_date b) = Some (TaskCreate.due_date td).
Proof.
  unfold validate_TaskCreate. split.
  - destruct (required_str 1 200 (Body.title b)); [|discriminate].
    destruct (optional_str 0 1000 (Body.description b)); [|discriminate].
    destruct (enum_default TaskStatus_of_value TODO (Body.status b)); [|discriminate].
    destruct (enum_default TaskPriority_of_value MEDIUM (Body.priority b)); [|discriminate].
    destruct (optional_str 0 100 (Body.assignee b)); [|discriminate].
    destruct (optional_datetime (Body.due_date b)); [|discriminate].
    intros H. injection H as <-. simpl. repeat split; reflexivity.
  - intros (-> & -> & -> & -> & -> & ->). now destruct td.
Qed.

Lemma required_str_Some (lo hi : nat) (f : field str) (s : str) :
  required_str lo hi f = Some s <-> f = Value s /\ length_ok lo hi s = true.
Proof.
  unfold required_str. destruct f as [| |v]; try (split; [discriminate | intros [? _]; discriminate]).
  destruct (length_ok lo hi v) eqn:E; split.
  - intros H. injection H as <-. now split.
  - intros [H _]. now injection H as <-.
  - discriminate.
  - intros [H H']. injection H as <-. congruence.
Qed.

Lemma length_ok_bounds (lo hi : nat) (s : str) :
  length_ok lo hi s = true <-> (lo <= len s <= hi)%nat.
Proof.
  unfold length_ok. rewrite andb_true_iff, !Nat.leb_le. tauto.
Qed.

Lemma validate_TaskUpdate_Some (b : Body.t) (u : TaskUpdate.t) :
  validate_TaskUpdate b = Some u <->
  optional_field (check_length 1 200) (Body.title b) = Some (TaskUpdate.title u)
  /\ optional_field (check_length 0 1000) (Body.description b) = Some (TaskUpdate.description u)
  /\ optional_field TaskStatus_of_value (Body.status b) = Some (TaskUpdate.status u)
  /\ optional_field TaskPriority_of_value (Body.priority b) = Some (TaskUpdate.priority u)
  /\ optional_field (check_length 0 100) (Body.assignee b) = Some (TaskUpdate.assignee u)
  /\ optional_field (@Some Z) (Body.due_date b) = Some (TaskUpdate.due_date u).
Proof.
  unfold validate_TaskUpdate. split.
  - destruct (optional_field (check_length 1 200) (Body.title b)); [|discriminate].
    destruct (optional_field (check_length 0 1000) (Body.description b)); [|discriminate].
    destruct (optional_field TaskStatus_of_value (Body.status b)); [|discriminate].
    destruct (optional_field TaskPriority_of_value (Body.priority b)); [|discriminate].
    destruct (optional_field (check_length 0 100) (Body.assignee b)); [|discriminate].
    destruct (optional_field (@Some Z) (Body.due_date b)); [|discriminate].
    intros H. injection H as <-. simpl. repeat split; reflexivity.
  - intros (-> & -> & -> & -> & -> & ->). now destruct u.
Qed.

Lemma optional_field_Missing {A B : Type} (check : A -> option B) (f : field A)
      (g : field B) :
  optional_field check f = Some g -> f = Missing -> g = Missing.
Proof. intros H ->. simpl in H. congruence. Qed.

(** A validated update never carries an empty title: the endpoint's own test
    for the empty string is never met behind the model's [min_length=1]. *)
Lemma validated_title_not_empty (b : Body.t) (u : TaskUpdate.t) :
  validate_TaskUpdate b = Some u ->
  is_empty_string (dict_get (TaskUpdate.title u)) = false.
Proof.
  intros H. apply validate_TaskUpdate_Some in H as (Ht & _).
  unfold optional_field, check_length in Ht.
  destruct (Body.title b) as [| |s]; try (injection Ht as <-; reflexivity).
  destruct (length_ok 1 200 s) eqn:E; [|discriminate].
  injection Ht as <-. simpl.
  apply length_ok_bounds in E. destruct s; simpl in *; [lia | reflexivity].
Qed.

(** An empty title in the body of an update is refused by the model. *)
Lemma validate_TaskUpdate_empty_title (b : Body.t) :
  Body.title b = Value [] -> validate_TaskUpdate b = None.
Proof. unfold validate_TaskUpdate. intros ->. reflexivity. Qed.

(* ========================================================================= *)
(** ** Update *)
(* ========================================================================= *)

(** An update whose title is the empty string is answered 422 and changes
    nothing, whether or not the id exists. *)
Lemma update_task_empty_title_rejected (task_id : str) (body : Body.t) (now : Z)
      (s : Session) :
  Body.title body = Value [] ->
  PUT_task task_id body now s = (Failed 422 RequestValidationError, s).
Proof.
  intros H. unfold PUT_task. now rewrite (validate_TaskUpdate_empty_title _ H).
Qed.

(** C1.  The claim fails on the code for a title of white space only: on a
    store holding one task, an update whose title is three spaces is answered
    200, and the stored title becomes the blank string; a Create with the
    same body is answered 422 by the test [create_task] makes on the trimmed
    title. *)
Lemma update_task_accepts_blank_title :
  let o := TaskModel.mk (py "u1") (Some (py "Report")) None (Some TODO)
                        (Some MEDIUM) None None 10 10 in
  let body := Body.mk (Value (py "   ")) Missing Missing Missing Missing Missing in
  blank (py "   ") = true
  /\ (exists t, PUT_task (py "u1") body 20 (up [o])
                = (Ok 200 t, up [setattr_updated_at (setattr_title o (Some (py "   "))) 20])
                /\ Task.title t = py "   ")
  /\ POST_tasks body 20 (py "u2") (up [o]) = (Failed 422 title_empty, up [o]).
Proof.
  intros o body. split; [reflexivity|]. split; [|reflexivity].
  eexists. split; reflexivity.
Qed.

(** C2, as amended.  Whatever the table, an update on an id that no row has
    is answered 404 whenever its body validates against [TaskUpdate], and the
    table is left as it was; the endpoint looks the id up before its own test
    of the title, so it raises 404 for every validated model.  A body that
    does not validate is answered 422 before the endpoint runs, known id or
    not. *)
Theorem update_task_unknown_id (task_id : str) (body : Body.t) (now : Z)
        (rows : list TaskModel.t) :
  (known task_id rows = false ->
   (forall updates, validate_TaskUpdate body = Some updates ->
      PUT_task task_id body now (up rows) = (Failed 404 (not_found task_id), up rows))
   /\ (forall updates,
      update_task task_id updates now (up rows) = (inl (not_found task_id), up rows)))
  /\ (validate_TaskUpdate body = None ->
      forall s, PUT_task task_id body now s = (Failed 422 RequestValidationError, s)).
Proof.
  split.
  - intros Hk. assert (Hu : forall updates,
      update_task task_id updates now (up rows) = (inl (not_found task_id), up rows)).
    { intros u. now rewrite update_task_up, (find_id_unknown _ _ Hk). }
    split; [|exact Hu].
    intros u Hv. unfold PUT_task, respond. rewrite Hv, Hu. reflexivity.
  - intros Hv s. unfold PUT_task. now rewrite Hv.
Qed.

(** C2 on a store with one task: an update of another id is answered 404,
    and an update with a priority outside the enumeration is answered 422. *)
Lemma update_task_unknown_id_example :
  let o := TaskModel.mk (py "u1") (Some (py "Report")) None (Some TODO)
                        (Some MEDIUM) None None 10 10 in
  let done := Body.mk Missing Missing (Value (py "done")) Missing Missing Missing in
  let urgent := Body.mk Missing Missing Missing (Value (py "urgent")) Missing Missing in
  PUT_task (py "u2") done 20 (up [o]) = (Failed 404 (not_found (py "u2")), up [o])
  /\ PUT_task (py "u1") urgent 20 (up [o]) = (Failed 422 RequestValidationError, up [o]).
Proof.
  intros o done urgent.
  destruct (update_task_unknown_id (py "u2") done 20 [o]) as [H _].
  destruct (update_task_unknown_id (py "u1") urgent 20 [o]) as [_ H'].
  destruct (H eq_refl) as [H1 _].
  split; [exact (H1 _ eq_refl) | exact (H' eq_refl (up [o]))].
Defined.

(** C2, as the specification words it, fails: an update on an id that no row
    has, with a priority that is no member of the enumeration, is answered
    422, not 404. *)
Lemma update_task_unknown_id_invalid_priority :
  let urgent := Body.mk Missing Missing Missing (Value (py "urgent")) Missing Missing in
  known (py "u2") [] = false
  /\ TaskPriority_of_value (py "urgent") = None
  /\ PUT_task (py "u2") urgent 20 (up []) = (Failed 422 RequestValidationError, up []).
Proof. intros urgent. repeat split. Qed.

(** The successful update of a stored task, in full. *)
Lemma PUT_task_Ok (task_id : str) (body : Body.t) (now : Z)
      (rows : list TaskModel.t) (new : Task.t) (s' : Session) :
  PUT_task task_id body now (up rows) = (Ok 200 new, s') ->
  exists updates old,
    validate_TaskUpdate body = Some updates
    /\ find (id_eq task_id) rows = Some old
    /\ not_null (updated old updates now) = true
    /\ Task_from_attributes (updated old updates now) = Some new
    /\ s' = up (rewritten rows (updated old updates now)).
Proof.
  unfold PUT_task. destruct (validate_TaskUpdate body) as [u|] eqn:Hv; [|discriminate].
  unfold respond. rewrite update_task_up.
  destruct (find (id_eq task_id) rows) as [old|] eqn:Hfind; [|discriminate].
  rewrite (validated_title_not_empty _ _ Hv).
  destruct (not_null (updated old u now)) eqn:Hnn; [|discriminate].
  destruct (Task_from_attributes (updated old u now)) as [t|] eqn:Ht; [|discriminate].
  intros H. injection H as <- <-. exists u, old. repeat split; assumption.
Qed.

(** C5, as amended.  After a successful update of a stored task, the id and
    the creation time are unchanged, every attribute whose key is missing
    from the body keeps its prior value, and [updated_at] is the reading of
    the clock, whatever the body supplies (also nothing); so [updated_at]
    grows strictly exactly when that reading is later than the stored one.
    The row of the table is rewritten with the record that is returned. *)
Theorem update_task_partial (task_id : str) (body : Body.t) (now : Z)
        (rows : list TaskModel.t) (old : TaskModel.t) (new : Task.t) (s' : Session) :
  find (id_eq task_id) rows = Some old ->
  PUT_task task_id body now (up rows) = (Ok 200 new, s') ->
  Task.id new = TaskModel.id old
  /\ Task.created_at new = TaskModel.created_at old
  /\ Task.updated_at new = now
  /\ (TaskModel.updated_at old < Task.updated_at new <-> TaskModel.updated_at old < now)
  /\ (Body.title body = Missing -> TaskModel.title old = Some (Task.title new))
  /\ (Body.description body = Missing ->
      Task.description new = TaskModel.description old)
  /\ (Body.status body = Missing -> TaskModel.status old = Some (Task.status new))
  /\ (Body.priority body = Missing -> TaskModel.priority old = Some (Task.priority new))
  /\ (Body.assignee body = Missing -> Task.assignee new = TaskModel.assignee old)
  /\ (Body.due_date body = Missing -> Task.due_date new = TaskModel.due_date old)
  /\ exists row, find (id_eq task_id) (tasks s') = Some row
                 /\ Task_from_attributes row = Some new.
Proof.
  intros Hold Hput.
  destruct (PUT_task_Ok _ _ _ _ _ _ Hput) as (u & old' & Hv & Hfind & Hnn & Ht & ->).
  rewrite Hold in Hfind. injection Hfind as <-.
  apply validate_TaskUpdate_Some in Hv as (Vt & Vd & Vs & Vp & Va & Vdd).
  unfold Task_from_attributes in Ht. cbn [updated TaskModel.title TaskModel.status
    TaskModel.priority TaskModel.id TaskModel.description TaskModel.assignee
    TaskModel.due_date TaskModel.created_at TaskModel.updated_at] in Ht.
  destruct (dict_get_default (TaskUpdate.title u) (TaskModel.title old)) as [t|] eqn:Et;
    [|discriminate].
  destruct (dict_get_default (TaskUpdate.status u) (TaskModel.status old)) as [st|] eqn:Es;
    [|discriminate].
  destruct (dict_get_default (TaskUpdate.priority u) (TaskModel.priority old)) as [pr|] eqn:Ep;
    [|discriminate].
  injection Ht as <-. cbn [Task.id Task.created_at Task.updated_at Task.title
    Task.description Task.status Task.priority Task.assignee Task.due_date].
  split; [reflexivity|]. split; [reflexivity|]. split; [reflexivity|].
  split; [tauto|].
  split. { intros M. now rewrite (optional_field_Missing _ _ _ Vt M) in Et. }
  split. { intros M. now rewrite (optional_field_Missing _ _ _ Vd M). }
  split. { intros M. now rewrite (optional_field_Missing _ _ _ Vs M) in Es. }
  split. { intros M. now rewrite (optional_field_Missing _ _ _ Vp M) in Ep. }
  split. { intros M. now rewrite (optional_field_Missing _ _ _ Va M). }
  split. { intros M. now rewrite (optional_field_Missing _ _ _ Vdd M). }
  exists (updated old u now). split.
  - assert (Hid : TaskModel.id old = task_id).
    { apply find_some in Hold as [_ H]. now apply str_eqb_eq in H. }
    cbn [tasks up]. rewrite <- Hid at 1.
    change (TaskModel.id old) with (TaskModel.id (updated old u now)).
    apply (find_rewritten task_id rows old); [exact Hold | reflexivity].
  - unfold Task_from_attributes. cbn [updated TaskModel.title TaskModel.status
      TaskModel.priority TaskModel.id TaskModel.description TaskModel.assignee
      TaskModel.due_date TaskModel.created_at TaskModel.updated_at].
    now rewrite Et, Es, Ep.
Qed.

(** C5 on the scenario of the specification: updating only the status keeps
    the title. *)
Lemma update_task_partial_example :
  let o := TaskModel.mk (py "u1") (Some (py "Test")) None (Some TODO)
                        (Some MEDIUM) None None 10 10 in
  let done := Body.mk Missing Missing (Value (py "done")) Missing Missing Missing in
  exists new s', PUT_task (py "u1") done 20 (up [o]) = (Ok 200 new, s')
                 /\ Task.status new = DONE
                 /\ Some (Task.title new) = Some (py "Test")
                 /\ Task.updated_at new = 20.
Proof.
  intros o done.
  pose (new := Task.mk (py "u1") (py "Test") None DONE MEDIUM None None 10 20).
  pose (s' := up [TaskModel.mk (py "u1") (Some (py "Test")) None (Some DONE)
                               (Some MEDIUM) None None 10 20]).
  exists new, s'.
  assert (Hput : PUT_task (py "u1") done 20 (up [o]) = (Ok 200 new, s'))
    by reflexivity.
  destruct (update_task_partial (py "u1") done 20 [o] o new s' eq_refl Hput)
    as (_ & _ & Hat & _ & Htitle & _).
  split; [exact Hput|]. split; [reflexivity|].
  split; [symmetry; exact (Htitle eq_refl) | exact Hat].
Defined.

(** C5, as the specification words it, fails: a task created and then
    updated at the same reading of the clock keeps its [updated_at]; the
    update succeeds and [updated_at] has not grown. *)
Lemma update_task_same_clock_reading :
  let create := Body.mk (Value (py "Test")) Missing Missing Missing Missing Missing in
  let done := Body.mk Missing Missing (Value (py "done")) Missing Missing Missing in
  exists old new s s',
    POST_tasks create 10 (py "u1") (up []) = (Ok 201 old, s)
    /\ PUT_task (py "u1") done 10 s = (Ok 200 new, s')
    /\ Task.updated_at old = 10
    /\ Task.updated_at new = 10
    /\ ~ Task.updated_at old < Task.updated_at new.
Proof.
  intros create done. do 4 eexists.
  split; [reflexivity|]. split; [reflexivity|].
  split; [reflexivity|]. split; [reflexivity|]. simpl. lia.
Qed.

(* ========================================================================= *)
(** ** Create *)
(* ========================================================================= *)

(** A blank title is refused before the store is touched. *)
Lemma create_task_blank (task_data : TaskCreate.t) (now : Z) (uuid4 : str)
      (s : Session) :
  blank (TaskCreate.title task_data) = true ->
  create_task task_data now uuid4 s = (inl title_empty, s).
Proof.
  unfold create_task, blank. intros ->. now rewrite orb_true_r.
Qed.

Lemma POST_tasks_valid (body : Body.t) (task_data : TaskCreate.t) (now : Z)
      (uuid4 : str) (rows : list TaskModel.t) :
  validate_TaskCreate body = Some task_data ->
  POST_tasks body now uuid4 (up rows) =
  if blank (TaskCreate.title task_data)
  then (Failed 422 title_empty, up rows)
  else if known uuid4 rows
       then (Failed 500 IntegrityError, up rows)
       else (Ok 201 (Task.mk uuid4 (TaskCreate.title task_data)
                       (TaskCreate.description task_data)
                       (TaskCreate.status task_data)
                       (TaskCreate.priority task_data)
                       (TaskCreate.assignee task_data)
                       (TaskCreate.due_date task_data) now now),
             up (rows ++ [created task_data now uuid4])).
Proof.
  intros Hv. unfold POST_tasks, respond. rewrite Hv, create_task_up.
  assert (E : negb (str_truth (TaskCreate.title task_data))
              || blank (TaskCreate.title task_data)
              = blank (TaskCreate.title task_data)).
  { destruct (TaskCreate.title task_data); reflexivity. }
  rewrite E. destruct (blank (TaskCreate.title task_data)); [reflexivity|].
  destruct (known uuid4 rows); reflexivity.
Qed.

Lemma validate_TaskCreate_with_title (body : Body.t) (td : TaskCreate.t) (s : str) :
  validate_TaskCreate body = Some td ->
  length_ok 1 200 s = true ->
  validate_TaskCreate (with_title body (Value s)) =
  Some (TaskCreate.mk s (TaskCreate.description td) (TaskCreate.status td)
          (TaskCreate.priority td) (TaskCreate.assignee td) (TaskCreate.due_date td)).
Proof.
  intros Hv Hs. apply validate_TaskCreate_Some in Hv as (_ & Hd & Hst & Hp & Ha & Hdd).
  apply validate_TaskCreate_Some. cbn [with_title Body.title Body.description
    Body.status Body.priority Body.assignee Body.due_date TaskCreate.title
    TaskCreate.description TaskCreate.status TaskCreate.priority
    TaskCreate.assignee TaskCreate.due_date].
  repeat split; try assumption.
  apply required_str_Some. now split.
Qed.

(** C3.  A Create is answered 422, and stores nothing, when its title is
    absent, empty or white space only, whatever the state of the session; an
    otherwise valid Create whose title has exactly 200 characters, not all of
    them white space, is answered 201 with that title; a Create whose title
    has more than 200 characters, so one of 201, is answered 422. *)
Theorem create_task_title_validation (body : Body.t) (now : Z) (uuid4 : str)
        (rows : list TaskModel.t) (s : Session) :
  (title_absent_or_blank body = true ->
   exists e, POST_tasks body now uuid4 s = (Failed 422 e, s))
  /\ (forall task_data t,
      validate_TaskCreate body = Some task_data ->
      len t = 200%nat -> blank t = false -> known uuid4 rows = false ->
      exists r s', POST_tasks (with_title body (Value t)) now uuid4 (up rows)
                   = (Ok 201 r, s')
                   /\ Task.title r = t)
  /\ (forall t, Body.title body = Value t -> (200 < len t)%nat ->
      POST_tasks body now uuid4 s = (Failed 422 RequestValidationError, s)).
Proof.
  split; [|split].
  - intros Hb. unfold POST_tasks.
    destruct (validate_TaskCreate body) as [td|] eqn:Hv.
    + exists title_empty.
      apply validate_TaskCreate_Some in Hv as (Ht & _).
      apply required_str_Some in Ht as [Ht _].
      unfold title_absent_or_blank in Hb. rewrite Ht in Hb.
      unfold respond. now rewrite (create_task_blank _ _ _ _ Hb).
    + now exists RequestValidationError.
  - intros td t Hv Hlen Hnb Hk.
    assert (Ht : length_ok 1 200 t = true) by (apply length_ok_bounds; lia).
    rewrite (POST_tasks_valid _ _ _ _ _ (validate_TaskCreate_with_title _ _ _ Hv Ht)).
    cbn [TaskCreate.title]. rewrite Hnb, Hk. do 2 eexists. split; reflexivity.
  - intros t Ht Hlen. unfold POST_tasks, validate_TaskCreate, required_str.
    rewrite Ht.
    assert (Hs : length_ok 1 200 t = false).
    { destruct (length_ok 1 200 t) eqn:E; [|reflexivity].
      apply length_ok_bounds in E. lia. }
    now rewrite Hs.
Qed.

(** C3 on the boundary cases of the specification: a title of two spaces, a
    missing title, a title of 200 letters and one of 201 letters. *)
Lemma create_task_title_validation_example :
  let body (title : field str) :=
    Body.mk title (Value (py "Milk, eggs")) Missing Missing Missing Missing in
  (exists e, POST_tasks (body (Value (py "  "))) 10 (py "u1") (up []) = (Failed 422 e, up []))
  /\ (exists e, POST_tasks (body Missing) 10 (py "u1") (up []) = (Failed 422 e, up []))
  /\ (exists r s', POST_tasks (body (Value (repeat 97%N 200))) 10 (py "u1") (up [])
                   = (Ok 201 r, s'))
  /\ POST_tasks (body (Value (repeat 97%N 201))) 10 (py "u1") (up [])
     = (Failed 422 RequestValidationError, up []).
Proof.
  intros body.
  destruct (create_task_title_validation (body (Value (py "  "))) 10 (py "u1") [] (up []))
    as (H1 & _ & _).
  destruct (create_task_title_validation (body Missing) 10 (py "u1") [] (up []))
    as (H2 & _ & _).
  destruct (create_task_title_validation (body (Value (py "Buy groceries"))) 10
              (py "u1") [] (up []))
    as (_ & H3 & _).
  destruct (create_task_title_validation (body (Value (repeat 97%N 201))) 10
              (py "u1") [] (up []))
    as (_ & _ & H4).
  split; [exact (H1 eq_refl)|]. split; [exact (H2 eq_refl)|]. split.
  - destruct (H3 _ (repeat 97%N 200) eq_refl eq_refl eq_refl eq_refl)
      as (r & s' & H & _).
    exists r, s'. exact H.
  - apply (H4 _ eq_refl). vm_compute. lia.
Defined.

(** C4.  A valid Create, given an id that no row has, is answered 201; and
    whenever a Create is answered 201 the returned record carries the
    generated id, which no row of the table had, its [created_at] equals its
    [updated_at], its status is todo when the body has no status and its
    priority is medium when the body has no priority; the record is added to
    the table, which is otherwise unchanged. *)
Theorem create_task_fresh_record (body : Body.t) (now : Z) (uuid4 : str)
        (rows : list TaskModel.t) :
  (forall task_data,
     validate_TaskCreate body = Some task_data ->
     blank (TaskCreate.title task_data) = false ->
     known uuid4 rows = false ->
     exists t s', POST_tasks body now uuid4 (up rows) = (Ok 201 t, s'))
  /\ (forall t s',
     POST_tasks body now uuid4 (up rows) = (Ok 201 t, s') ->
     Task.id t = uuid4
     /\ ~ In (Task.id t) (ids rows)
     /\ Task.created_at t = Task.updated_at t
     /\ (Body.status body = Missing -> Task.status t = TODO)
     /\ (Body.priority body = Missing -> Task.priority t = MEDIUM)
     /\ exists row, tasks s' = rows ++ [row]
                    /\ Task_from_attributes row = Some t).
Proof.
  split.
  - intros td Hv Hnb Hk. rewrite (POST_tasks_valid _ _ _ _ _ Hv), Hnb, Hk.
    do 2 eexists. reflexivity.
  - intros t s'. destruct (validate_TaskCreate body) as [td|] eqn:Hv.
    + rewrite (POST_tasks_valid _ _ _ _ _ Hv).
      destruct (blank (TaskCreate.title td)); [discriminate|].
      destruct (known uuid4 rows) eqn:Hk; [discriminate|].
      intros H. injection H as <- <-.
      apply validate_TaskCreate_Some in Hv as (_ & _ & Hs & Hp & _).
      cbn [Task.id Task.created_at Task.updated_at Task.status Task.priority].
      split; [reflexivity|]. split; [now apply unknown_not_In|].
      split; [reflexivity|].
      split. { intros M. rewrite M in Hs. simpl in Hs. congruence. }
      split. { intros M. rewrite M in Hp. simpl in Hp. congruence. }
      exists (created td now uuid4). split; reflexivity.
    + unfold POST_tasks. rewrite Hv. discriminate.
Qed.

(** C4 on the scenario of the specification: a Create with a title and a
    description only. *)
Lemma create_task_fresh_record_example :
  let body := Body.mk (Value (py "Buy groceries")) (Value (py "Milk, eggs"))
                      Missing Missing Missing Missing in
  let o := TaskModel.mk (py "u1") (Some (py "Report")) None (Some DONE)
                        (Some HIGH) None None 10 10 in
  exists t s', POST_tasks body 20 (py "u2") (up [o]) = (Ok 201 t, s')
               /\ Task.id t = py "u2"
               /\ ~ In (Task.id t) (ids [o])
               /\ Task.created_at t = Task.updated_at t
               /\ Task.status t = TODO
               /\ Task.priority t = MEDIUM.
Proof.
  intros body o.
  destruct (create_task_fresh_record body 20 (py "u2") [o]) as [Hex Hprop].
  destruct (Hex _ eq_refl eq_refl eq_refl) as (t & s' & Hpost).
  destruct (Hprop t s' Hpost) as (Hid & Hfresh & Htime & Hst & Hpr & _).
  exists t, s'.
  split; [exact Hpost|]. split; [exact Hid|]. split; [exact Hfresh|].
  split; [exact Htime|]. split; [exact (Hst eq_refl) | exact (Hpr eq_refl)].
Defined.

(* ========================================================================= *)
(** ** Effects of the endpoints on the table, under any schedule of faults *)
(* ========================================================================= *)

Lemma read_only_ret {A : Type} (a : A) : read_only (ret a).
Proof. intros s. reflexivity. Qed.

Lemma read_only_raise {A : Type} (e : exn) : read_only (@raise A e).
Proof. intros s. reflexivity. Qed.

Lemma read_only_execute : read_only execute.
Proof. intros [rows [|[msg|] f]]; reflexivity. Qed.

Lemma read_only_table : read_only table.
Proof. intros s. reflexivity. Qed.

Lemma read_only_bind {A B : Type} (m : M A) (k : A -> M B) :
  read_only m -> (forall a, read_only (k a)) -> read_only (bind m k).
Proof.
  intros Hm Hk s. unfold bind. specialize (Hm s).
  destruct (m s) as [[e|a] s1]; simpl in *; [exact Hm|].
  now rewrite Hk.
Qed.

Lemma read_only_try_except {A : Type} (body : M A) (handler : exn -> M A) :
  read_only body -> (forall e, read_only (handler e)) ->
  read_only (try_except body handler).
Proof.
  intros Hm Hk s. unfold try_except. specialize (Hm s).
  destruct (body s) as [[e|a] s1]; simpl in *; [|exact Hm].
  now rewrite Hk.
Qed.

Create HintDb read_only.
#[local] Hint Resolve read_only_ret read_only_raise read_only_execute
  read_only_table : read_only.

Ltac read_only_tac :=
  repeat first
    [ apply read_only_bind; [|intros ?]
    | apply read_only_try_except; [|intros ?]
    | solve [auto with read_only] ].

Lemma read_only_first (q : Query) : read_only (first q).
Proof. unfold first. read_only_tac. Qed.

Lemma read_only_all (q : Query) : read_only (all q).
Proof. unfold all. read_only_tac. Qed.

Lemma read_only_count (q : Query) : read_only (count q).
Proof. unfold count. read_only_tac. Qed.

Lemma read_only_refresh (task : TaskModel.t) : read_only (refresh task).
Proof.
  unfold refresh.
  apply read_only_bind; [apply read_only_execute | intros _].
  apply read_only_bind; [apply read_only_table | intros rows].
  destruct (find (id_eq (TaskModel.id task)) rows); auto with read_only.
Qed.

Lemma read_only_health_check : read_only health_check.
Proof.
  unfold health_check.
  apply read_only_try_except; [|intros e; apply read_only_ret].
  apply read_only_bind; [apply read_only_execute | intros _].
  apply read_only_bind; [apply read_only_count | intros n; apply read_only_ret].
Qed.

Lemma read_only_get_tasks (status : option TaskStatus) (priority : option TaskPriority)
      (assignee : option str) : read_only (get_tasks status priority assignee).
Proof. unfold get_tasks. apply read_only_all. Qed.

Lemma read_only_get_task (task_id : str) : read_only (get_task task_id).
Proof.
  unfold get_task. apply read_only_bind; [apply read_only_first|].
  intros [o|]; auto with read_only.
Qed.

Lemma respond_tasks {A B : Type} (status_code : Z) (response_model : A -> option B)
      (endpoint : M A) (s : Session) :
  tasks (snd (respond status_code response_model endpoint s))
  = tasks (snd (endpoint s)).
Proof.
  unfold respond. destruct (endpoint s) as [[e|a] s1]; [reflexivity|].
  now destruct (response_model a).
Qed.

Lemma bind_read_only_tasks {A B : Type} (m : M A) (k : A -> M B) (s : Session) :
  (forall a, read_only (k a)) ->
  tasks (snd (bind m k s)) = tasks (snd (m s)).
Proof.
  intros Hk. unfold bind. destruct (m s) as [[e|a] s1]; [reflexivity|].
  apply Hk.
Qed.

(** The three writes: what they leave in the table. *)
Lemma add_commit_tasks (task : TaskModel.t) (s : Session) :
  tasks (snd (add_commit task s)) = tasks s
  \/ (key_free (tasks s) task = true
      /\ tasks (snd (add_commit task s)) = tasks s ++ [task]).
Proof.
  unfold add_commit, bind, execute, table, store, raise.
  destruct s as [rows [|[msg|] f]]; cbn [faults tasks fst snd];
    try (now left);
    (destruct (not_null task); cbn [andb]; [|now left]);
    (destruct (key_free rows task) eqn:E; [right; now split | now left]).
Qed.

Lemma commit_tasks (task : TaskModel.t) (s : Session) :
  tasks (snd (commit task s)) = tasks s
  \/ (not_null task = true
      /\ tasks (snd (commit task s)) = rewritten (tasks s) task).
Proof.
  unfold commit, bind, execute, table, store, raise.
  destruct s as [rows [|[msg|] f]]; cbn [faults tasks fst snd];
    try (now left);
    (destruct (not_null task) eqn:E; [right; now split | now left]).
Qed.

Lemma delete_commit_tasks (task : TaskModel.t) (s : Session) :
  tasks (snd (delete_commit task s)) = tasks s
  \/ tasks (snd (delete_commit task s))
     = filter (fun r => negb (id_eq (TaskModel.id task) r)) (tasks s).
Proof.
  unfold delete_commit, bind, execute, table, store.
  destruct s as [rows [|[msg|] f]]; cbn [faults tasks fst snd];
    try (now left); now right.
Qed.

Lemma first_result (q : Query) (s : Session) :
  exists s1, tasks s1 = tasks s
             /\ (first q s = (inr (find q (tasks s)), s1)
                 \/ exists e, first q s = (inl e, s1)).
Proof.
  unfold first, bind, execute, table, ret.
  destruct s as [rows [|[msg|] f]]; cbn [faults tasks];
    eexists; (split; [|first [left; reflexivity | right; eexists; reflexivity]]);
    reflexivity.
Qed.

(** What a Create leaves in the table. *)
Lemma POST_tasks_tasks (P : list TaskModel.t -> Prop) (body : Body.t) (now : Z)
      (uuid4 : str) (s : Session) :
  P (tasks s) ->
  (forall task_data,
     validate_TaskCreate body = Some task_data ->
     known uuid4 (tasks s) = false ->
     P (tasks s ++ [created task_data now uuid4])) ->
  P (tasks (snd (POST_tasks body now uuid4 s))).
Proof.
  intros Hsame Hnew.
  unfold POST_tasks. destruct (validate_TaskCreate body) as [td|] eqn:Hv;
    [|exact Hsame].
  rewrite respond_tasks. unfold create_task.
  destruct (_ || _); [exact Hsame|].
  fold (created td now uuid4).
  rewrite bind_read_only_tasks.
  2:{ intros _. apply read_only_bind; [apply read_only_refresh|].
      intros ?. apply read_only_ret. }
  destruct (add_commit_tasks (created td now uuid4) s) as [H|[Hk H]];
    rewrite H; [exact Hsame|].
  apply (Hnew td); [reflexivity|].
  unfold key_free in Hk. cbn [created TaskModel.id] in Hk.
  unfold known. now destruct (existsb (id_eq uuid4) (tasks s)).
Qed.

(** What an Update leaves in the table: a property of the table holds
    afterwards when it holds of the unchanged table and of the table with
    the updated row rewritten. *)
Lemma PUT_task_tasks (P : list TaskModel.t -> Prop) (task_id : str) (body : Body.t)
      (now : Z) (s : Session) :
  P (tasks s) ->
  (forall updates old,
     validate_TaskUpdate body = Some updates ->
     find (id_eq task_id) (tasks s) = Some old ->
     not_null (updated old updates now) = true ->
     P (rewritten (tasks s) (updated old updates now))) ->
  P (tasks (snd (PUT_task task_id body now s))).
Proof.
  intros Hsame Hnew.
  unfold PUT_task. destruct (validate_TaskUpdate body) as [u|] eqn:Hv;
    [|exact Hsame].
  rewrite respond_tasks. unfold update_task, bind at 1.
  destruct (first_result (filter_by query (id_eq task_id)) s)
    as (s1 & Hs1 & [Hf|(e & Hf)]); rewrite Hf; [|cbn [snd]; now rewrite Hs1].
  rewrite find_query_id.
  destruct (find (id_eq task_id) (tasks s)) as [old|] eqn:Hfind;
    [|cbn [raise snd]; now rewrite Hs1].
  unfold model_dump_exclude_unset.
  destruct (is_empty_string _); [cbn [raise snd]; now rewrite Hs1|].
  match goal with
  | |- context [commit ?t] => change t with (updated old u now)
  end.
  rewrite bind_read_only_tasks.
  2:{ intros _. apply read_only_bind; [apply read_only_refresh|].
      intros ?. apply read_only_ret. }
  destruct (commit_tasks (updated old u now) s1) as [H|[Hnn H]];
    rewrite H, Hs1; [exact Hsame|].
  now apply (Hnew u old).
Qed.

(** What a Delete leaves in the table. *)
Lemma DELETE_task_tasks (P : list TaskModel.t -> Prop) (task_id : str) (s : Session) :
  P (tasks s) ->
  P (filter (fun r => negb (id_eq task_id r)) (tasks s)) ->
  P (tasks (snd (DELETE_task task_id s))).
Proof.
  intros Hsame Hnew.
  unfold DELETE_task. rewrite respond_tasks. unfold delete_task, bind at 1.
  destruct (first_result (filter_by query (id_eq task_id)) s)
    as (s1 & Hs1 & [Hf|(e & Hf)]); rewrite Hf; [|cbn [snd]; now rewrite Hs1].
  rewrite find_query_id.
  destruct (find (id_eq task_id) (tasks s)) as [old|] eqn:Hfind;
    [|cbn [raise snd]; now rewrite Hs1].
  rewrite bind_read_only_tasks by (intros ?; apply read_only_ret).
  assert (Hid : TaskModel.id old = task_id).
  { apply find_some in Hfind as [_ H]. now apply str_eqb_eq in H. }
  destruct (delete_commit_tasks old s1) as [H|H]; rewrite H, Hs1, ?Hid;
    assumption.
Qed.

(* ========================================================================= *)
(** ** Invariants of the reachable states *)
(* ========================================================================= *)

Lemma ids_rewritten (rows : list TaskModel.t) (n : TaskModel.t) :
  ids (rewritten rows n) = ids rows.
Proof.
  unfold ids, rewritten. induction rows as [|r rows IH]; simpl; [reflexivity|].
  rewrite IH. f_equal. destruct (id_eq (TaskModel.id n) r) eqn:E; [|reflexivity].
  symmetry. now apply str_eqb_eq.
Qed.

Lemma Forall_rewritten (P : TaskModel.t -> Prop) (rows : list TaskModel.t)
      (n : TaskModel.t) :
  Forall P rows -> P n -> Forall P (rewritten rows n).
Proof.
  intros Hrows Hn. unfold rewritten. induction Hrows as [|r rows Hr _ IH]; simpl;
    constructor; [|exact IH].
  now destruct (id_eq (TaskModel.id n) r).
Qed.

Lemma NoDup_ids_filter (p : TaskModel.t -> bool) (rows : list TaskModel.t) :
  NoDup (ids rows) -> NoDup (ids (filter p rows)).
Proof.
  unfold ids. induction rows as [|r rows IH]; simpl; [trivial|].
  intros H. inversion H as [|? ? Hnotin Hrest]; subst.
  destruct (p r); simpl; [|now apply IH].
  constructor; [|now apply IH].
  intros Hin. apply Hnotin. apply in_map_iff in Hin as (o & Ho & Hin).
  apply filter_In in Hin as [Hin _]. apply in_map_iff. now exists o.
Qed.

Lemma NoDup_ids_appended (rows : list TaskModel.t) (o : TaskModel.t) :
  NoDup (ids rows) -> known (TaskModel.id o) rows = false ->
  NoDup (ids (rows ++ [o])).
Proof.
  intros Hnd Hk. unfold ids. rewrite map_app. simpl.
  apply NoDup_app; [exact Hnd | repeat constructor; intros [] |].
  intros x Hx [<-|[]]. now apply unknown_not_In in Hk.
Qed.

Lemma well_formed_created (body : Body.t) (task_data : TaskCreate.t) (now : Z)
      (uuid4 : str) :
  validate_TaskCreate body = Some task_data ->
  well_formed (created task_data now uuid4).
Proof.
  intros Hv. apply validate_TaskCreate_Some in Hv as (Ht & _).
  apply required_str_Some in Ht as [_ Hlen]. apply length_ok_bounds in Hlen.
  split; [|split; discriminate].
  exists (TaskCreate.title task_data). split; [reflexivity|].
  split; [|lia]. intros E. rewrite E in Hlen. simpl in Hlen. lia.
Qed.

Lemma well_formed_updated (body : Body.t) (updates : TaskUpdate.t)
      (old : TaskModel.t) (now : Z) :
  validate_TaskUpdate body = Some updates ->
  well_formed old ->
  not_null (updated old updates now) = true ->
  well_formed (updated old updates now).
Proof.
  intros Hv ((t & Ht & Hne & Hlen) & _ & _) Hnn.
  apply validate_TaskUpdate_Some in Hv as (Vt & _).
  unfold not_null in Hnn. unfold well_formed.
  cbn [updated TaskModel.title TaskModel.status TaskModel.priority] in *.
  destruct (dict_get_default (TaskUpdate.status updates) (TaskModel.status old));
    [|destruct (dict_get_default (TaskUpdate.title updates) (TaskModel.title old));
      discriminate].
  destruct (dict_get_default (TaskUpdate.priority updates) (TaskModel.priority old));
    [|destruct (dict_get_default (TaskUpdate.title updates) (TaskModel.title old));
      discriminate].
  split; [|split; discriminate].
  unfold optional_field, check_length in Vt.
  destruct (Body.title body) as [| |v].
  - injection Vt as <-. simpl. now exists t.
  - injection Vt as Vt. rewrite <- Vt in Hnn. simpl in Hnn. discriminate.
  - destruct (length_ok 1 200 v) eqn:E; [|discriminate].
    injection Vt as <-. simpl. exists v. split; [reflexivity|].
    apply length_ok_bounds in E. split; [|lia].
    intros ->. simpl in E. lia.
Qed.

Lemma serve_read_only (s : Session) (r : request) :
  match r with
  | Health_request | List_request _ _ _ | Get_request _ => tasks (serve s r) = tasks s
  | _ => True
  end.
Proof.
  destruct r; trivial; unfold serve.
  - unfold GET_health. rewrite respond_tasks. apply read_only_health_check.
  - unfold GET_tasks. rewrite respond_tasks. apply read_only_get_tasks.
  - unfold GET_task. rewrite respond_tasks. apply read_only_get_task.
Qed.

Ltac table_unchanged :=
  match goal with
  | |- context [serve ?s ?r] =>
      let E := fresh "E" in
      pose proof (serve_read_only s r) as E; cbn beta iota in E; rewrite E
  end.

Lemma serve_consistent (s : Session) (r : request) :
  consistent (tasks s) -> consistent (tasks (serve s r)).
Proof.
  intros [Hnd Hwf].
  destruct r as [| st pr a | task_id | body now uuid4 | task_id body now | task_id];
    try (table_unchanged; now split); unfold serve.
  - apply POST_tasks_tasks; [now split|].
    intros td Hv Hk. split.
    + now apply NoDup_ids_appended.
    + apply Forall_app. split; [exact Hwf|].
      constructor; [|constructor]. now apply (well_formed_created body).
  - apply PUT_task_tasks; [now split|].
    intros u old Hv Hfind Hnn. split.
    + now rewrite ids_rewritten.
    + apply Forall_rewritten; [exact Hwf|].
      apply (well_formed_updated body); [exact Hv | | exact Hnn].
      apply find_some in Hfind as [Hin _].
      now apply (proj1 (Forall_forall _ _) Hwf).
  - apply DELETE_task_tasks; [now split|].
    split; [now apply NoDup_ids_filter | now apply Forall_filter].
Qed.

Lemma run_consistent (history : list request) (s : Session) :
  consistent (tasks s) -> consistent (tasks (run history s)).
Proof.
  revert s. induction history as [|r history IH]; intros s H; [exact H|].
  apply IH. now apply serve_consistent.
Qed.

Lemma written_by_later (lo lo' : Z) (rows : list TaskModel.t) :
  lo <= lo' -> written_by lo rows -> written_by lo' rows.
Proof.
  intros Hle. unfold written_by. apply Forall_impl. intros o [H1 H2].
  split; [exact H1 | lia].
Qed.

Lemma serve_written_by (s : Session) (r : request) (lo : Z) (rest : list Z) :
  written_by lo (tasks s) ->
  never_before lo (clock r ++ rest) = true ->
  exists lo', written_by lo' (tasks (serve s r)) /\ never_before lo' rest = true.
Proof.
  intros Hw Hclock.
  destruct r as [| st pr a | task_id | body now uuid4 | task_id body now | task_id];
    try (exists lo; table_unchanged; now split);
    cbn [clock app never_before] in Hclock; unfold serve.
  - apply andb_true_iff in Hclock as [Hle Hrest]. apply Z.leb_le in Hle.
    exists now. split; [|exact Hrest].
    apply POST_tasks_tasks; [now apply (written_by_later lo)|].
    intros td _ _. apply Forall_app. split; [now apply (written_by_later lo)|].
    constructor; [|constructor]. unfold timestamps_ordered. simpl. lia.
  - apply andb_true_iff in Hclock as [Hle Hrest]. apply Z.leb_le in Hle.
    exists now. split; [|exact Hrest].
    apply PUT_task_tasks; [now apply (written_by_later lo)|].
    intros u old _ Hfind _.
    apply Forall_rewritten; [now apply (written_by_later lo)|].
    apply find_some in Hfind as [Hin _].
    destruct (proj1 (Forall_forall _ _) Hw old Hin) as [Hord Hup].
    unfold timestamps_ordered in *. simpl. lia.
  - exists lo. split; [|exact Hclock].
    apply DELETE_task_tasks; [exact Hw | now apply Forall_filter].
Qed.

Lemma run_written_by (history : list request) (s : Session) (lo : Z) :
  written_by lo (tasks s) ->
  never_before lo (flat_map clock history) = true ->
  Forall timestamps_ordered (tasks (run history s)).
Proof.
  revert s lo. induction history as [|r history IH]; intros s lo Hw Hclock.
  - simpl. revert Hw. apply Forall_impl. now intros o [H _].
  - simpl in Hclock.
    destruct (serve_written_by s r lo _ Hw Hclock) as (lo' & Hw' & Hclock').
    exact (IH _ lo' Hw' Hclock').
Qed.

(** C6, as amended.  In every state of the table reachable from the empty
    table by a history of requests, under any schedule of connection faults,
    the ids of the tasks are pairwise distinct, every task has a title that
    is not the empty string (and has at most 200 characters), and a status
    and a priority that are members of their enumerations; and when the
    clock never went back during a history that leads to the state, every
    task has [updated_at >= created_at]. *)
Theorem reachable_store_invariants (rows : list TaskModel.t) :
  reachable rows ->
  NoDup (ids rows)
  /\ Forall well_formed rows
  /\ (forall history f,
      tasks (run history (mkSession [] f)) = rows ->
      clock_monotone history = true ->
      Forall timestamps_ordered rows).
Proof.
  intros (history & f & Hrun).
  destruct (run_consistent history (mkSession [] f)) as [Hnd Hwf].
  { split; constructor. }
  rewrite Hrun in Hnd, Hwf.
  split; [exact Hnd|]. split; [exact Hwf|].
  clear history f Hrun Hnd Hwf. intros history f <-.
  unfold clock_monotone. intros Hclock.
  destruct (flat_map clock history) as [|t rest] eqn:E.
  - apply (run_written_by history _ 0); [constructor | now rewrite E].
  - apply (run_written_by history _ t); [constructor|].
    rewrite E. simpl. now rewrite Z.leb_refl.
Qed.

(** C6 on a history of two creations, an update and a deletion, with a
    connection fault on the way. *)
Lemma reachable_store_invariants_example :
  let create := Body.mk (Value (py "Test")) Missing Missing Missing Missing Missing in
  let done := Body.mk Missing Missing (Value (py "done")) Missing Missing Missing in
  let history := [Create_request create 10 (py "u1");
                  Create_request create 11 (py "u2");
                  Update_request (py "u1") done 12;
                  Delete_request (py "u2")] in
  let f := [None; Some (py "timeout")] in
  let rows := tasks (run history (mkSession [] f)) in
  reachable rows
  /\ List.length rows = 1%nat
  /\ NoDup (ids rows)
  /\ Forall well_formed rows
  /\ Forall timestamps_ordered rows.
Proof.
  intros create done history f rows.
  assert (Hreach : reachable rows) by (exists history, f; reflexivity).
  destruct (reachable_store_invariants rows Hreach) as (Hnd & Hwf & Hts).
  split; [exact Hreach|]. split; [reflexivity|].
  split; [exact Hnd|]. split; [exact Hwf|].
  exact (Hts history f eq_refl eq_refl).
Defined.

(** C6, as the specification words it, fails: the clock of the service is
    the wall clock, and when it is set back between the creation of a task
    and its update, the stored task has [updated_at < created_at]. *)
Lemma reachable_store_clock_set_back :
  let create := Body.mk (Value (py "Test")) Missing Missing Missing Missing Missing in
  let done := Body.mk Missing Missing (Value (py "done")) Missing Missing Missing in
  let history := [Create_request create 10 (py "u1");
                  Update_request (py "u1") done 5] in
  let row := TaskModel.mk (py "u1") (Some (py "Test")) None (Some DONE)
                          (Some MEDIUM) None None 10 5 in
  tasks (run history (mkSession [] [])) = [row]
  /\ reachable [row]
  /\ TaskModel.updated_at row < TaskModel.created_at row
  /\ ~ store_invariants [row].
Proof.
  intros create done history row.
  assert (Hrun : tasks (run history (mkSession [] [])) = [row]) by reflexivity.
  split; [exact Hrun|]. split; [now exists history, []|].
  split; [reflexivity|].
  intros (_ & _ & _ & Hts). inversion Hts as [|? ? Hrow _]; subst.
  unfold timestamps_ordered in Hrow. simpl in Hrow. lia.
Qed.

(* ========================================================================= *)
(** ** Further properties of Create *)
(* ========================================================================= *)


(** The successful creation of a task, in full. *)
Lemma POST_tasks_Ok (body : Body.t) (now : Z) (uuid4 : str)
      (rows : list TaskModel.t) (t : Task.t) (s' : Session) :
  POST_tasks body now uuid4 (up rows) = (Ok 201 t, s') ->
  exists task_data,
    validate_TaskCreate body = Some task_data
    /\ blank (TaskCreate.title task_data) = false
    /\ known uuid4 rows = false
    /\ Task_from_attributes (created task_data now uuid4) = Some t
    /\ s' = up (rows ++ [created task_data now uuid4]).
Proof.
  destruct (validate_TaskCreate body) as [td|] eqn:Hv.
  - rewrite (POST_tasks_valid _ _ _ _ _ Hv).
    destruct (blank (TaskCreate.title td)) eqn:Hb; [discriminate|].
    destruct (known uuid4 rows) eqn:Hk; [discriminate|].
    intros H. injection H as <- <-. exists td.
    split; [reflexivity|]. split; [exact Hb|]. split; [reflexivity|].
    split; reflexivity.
  - unfold POST_tasks. rewrite Hv. discriminate.
Qed.

Lemma filter_out_appended (o : TaskModel.t) (rows : list TaskModel.t) :
  known (TaskModel.id o) rows = false ->
  filter (fun r => negb (id_eq (TaskModel.id o) r)) (rows ++ [o]) = rows.
Proof.
  unfold known. induction rows as [|r rows IH]; simpl.
  - intros _. unfold id_eq. now rewrite str_eqb_refl.
  - destruct (id_eq (TaskModel.id o) r); simpl; [discriminate|].
    intros H. now rewrite IH.
Qed.

(** X1.  A task that was created can be read back: after a Create answered
    201, a Get on the returned id is answered 200 with the very record the
    Create returned, and leaves the store as the Create left it. *)
Theorem create_then_get (body : Body.t) (now : Z) (uuid4 : str)
        (rows : list TaskModel.t) (t : Task.t) (s' : Session) :
  POST_tasks body now uuid4 (up rows) = (Ok 201 t, s') ->
  GET_task (Task.id t) s' = (Ok 200 t, s').
Proof.
  intros H. destruct (POST_tasks_Ok _ _ _ _ _ _ H) as (td & _ & _ & Hk & Ht & ->).
  assert (Hid : Task.id t = uuid4).
  { unfold Task_from_attributes in Ht. simpl in Ht. now injection Ht as <-. }
  rewrite Hid. unfold GET_task, respond. rewrite get_task_up.
  change uuid4 with (TaskModel.id (created td now uuid4)) at 1.
  rewrite find_appended by exact Hk. now rewrite Ht.
Qed.

(** X1 on a store with one task. *)
Lemma create_then_get_example :
  let body := Body.mk (Value (py "Trouve-moi")) Missing Missing Missing Missing Missing in
  let o := TaskModel.mk (py "u1") (Some (py "Report")) None (Some DONE)
                        (Some HIGH) None None 10 10 in
  exists t s', POST_tasks body 20 (py "u2") (up [o]) = (Ok 201 t, s')
               /\ GET_task (Task.id t) s' = (Ok 200 t, s')
               /\ Task.title t = py "Trouve-moi".
Proof.
  intros body o. do 2 eexists.
  split; [reflexivity|].
  split; [apply (create_then_get body 20 (py "u2") [o]); reflexivity | reflexivity].
Defined.



(** X3.  Creating a task and deleting it again restores the store: after a
    Create answered 201, a Delete on the returned id is answered 204 and the
    table is exactly the table before the Create. *)
Theorem create_then_delete_restores (body : Body.t) (now : Z) (uuid4 : str)
        (rows : list TaskModel.t) (t : Task.t) (s' : Session) :
  POST_tasks body now uuid4 (up rows) = (Ok 201 t, s') ->
  DELETE_task (Task.id t) s' = (Ok 204 tt, up rows).
Proof.
  intros H. destruct (POST_tasks_Ok _ _ _ _ _ _ H) as (td & _ & _ & Hk & Ht & ->).
  assert (Hid : Task.id t = uuid4).
  { unfold Task_from_attributes in Ht. simpl in Ht. now injection Ht as <-. }
  rewrite Hid. unfold DELETE_task, respond. rewrite delete_task_up.
  change uuid4 with (TaskModel.id (created td now uuid4)) at 1.
  rewrite find_appended by exact Hk.
  now rewrite filter_out_appended by exact Hk.
Qed.

(** X3 on a store with one task. *)
Lemma create_then_delete_restores_example :
  let body := Body.mk (Value (py "Cycle de vie")) Missing Missing Missing Missing Missing in
  let o := TaskModel.mk (py "u1") (Some (py "Report")) None (Some DONE)
                        (Some HIGH) None None 10 10 in
  exists t s', POST_tasks body 20 (py "u2") (up [o]) = (Ok 201 t, s')
               /\ DELETE_task (Task.id t) s' = (Ok 204 tt, up [o]).
Proof.
  intros body o. do 2 eexists. split; [reflexivity|].
  apply (create_then_delete_restores body 20 (py "u2") [o]). reflexivity.
Defined.

Lemma title_test_is_blank (t : str) :
  negb (str_truth t) || negb (str_truth (strip t)) = blank t.
Proof. destruct t; reflexivity. Qed.

(** X4.  Under any state of the session, a Create is answered 422 with the
    detail of the endpoint's own title test exactly when its body validates
    and every character of its title is a white space character. *)
Theorem create_task_refuses_exactly_blank_titles (body : Body.t) (now : Z)
        (uuid4 : str) (s : Session) :
  fst (POST_tasks body now uuid4 s) = Failed 422 title_empty
  <-> exists task_data,
        validate_TaskCreate body = Some task_data
        /\ forallb isspace (TaskCreate.title task_data) = true.
Proof.
  unfold POST_tasks. destruct (validate_TaskCreate body) as [td|] eqn:Hv.
  - destruct (blank (TaskCreate.title td)) eqn:Hb.
    + unfold respond. rewrite (create_task_blank _ _ _ _ Hb). simpl.
      split; [|reflexivity]. intros _. exists td. split; [reflexivity|].
      now apply blank_iff.
    + split.
      * unfold respond, create_task. rewrite title_test_is_blank, Hb.
        unfold bind, add_commit, refresh, bind, execute, table, store, raise, ret.
        destruct s as [rows [|[m|] [|[m'|] f]]]; cbn [faults tasks];
          try discriminate;
          (destruct (not_null _ && key_free rows _); cbn [faults tasks];
           [|discriminate]);
          try discriminate;
          (destruct (find _ _); [|discriminate]);
          (destruct (Task_from_attributes _); discriminate).
      * intros (td' & Htd & Hall). injection Htd as <-.
        apply blank_iff in Hall. congruence.
  - simpl. split; [discriminate|]. intros (td & Htd & _). discriminate.
Qed.

(** X5.  A Create can be answered 500 and still have stored the task: when
    the insertion is committed and the connection fails on the reading back
    of the record, the answer is the connection error, and the table holds
    the new task. *)
Theorem create_task_persists_before_refresh (body : Body.t)
        (task_data : TaskCreate.t) (now : Z) (uuid4 : str)
        (rows : list TaskModel.t) (msg : str) (f : list (option str)) :
  validate_TaskCreate body = Some task_data ->
  blank (TaskCreate.title task_data) = false ->
  known uuid4 rows = false ->
  POST_tasks body now uuid4 (mkSession rows (None :: Some msg :: f))
  = (Failed 500 (OperationalError msg),
     mkSession (rows ++ [created task_data now uuid4]) f).
Proof.
  intros Hv Hb Hk. unfold POST_tasks, respond, create_task.
  rewrite Hv, title_test_is_blank, Hb.
  fold (created task_data now uuid4).
  unfold bind, add_commit, refresh, bind, execute, table, store, raise, ret.
  cbn [faults tasks]. unfold key_free, not_null.
  cbn [created TaskModel.id TaskModel.title TaskModel.status TaskModel.priority andb].
  fold (known uuid4 rows). rewrite Hk. reflexivity.
Qed.

(** X5 on the empty store. *)
Lemma create_task_persists_before_refresh_example :
  let body := Body.mk (Value (py "Report")) Missing Missing Missing Missing Missing in
  exists row,
    POST_tasks body 20 (py "u1") (mkSession [] [None; Some (py "connection lost")])
    = (Failed 500 (OperationalError (py "connection lost")), up [row])
    /\ TaskModel.title row = Some (py "Report").
Proof.
  intros body. eexists.
  split; [exact (create_task_persists_before_refresh body _ 20 (py "u1") []
                   (py "connection lost") [] eq_refl eq_refl eq_refl)
         | reflexivity].
Defined.

(* ========================================================================= *)
(** ** Further properties of Update *)
(* ========================================================================= *)

Lemma find_id (task_id : str) (rows : list TaskModel.t) (o : TaskModel.t) :
  find (id_eq task_id) rows = Some o -> TaskModel.id o = task_id.
Proof. intros H. apply find_some in H as [_ H]. now apply str_eqb_eq in H. Qed.

Lemma find_updated (task_id : str) (rows : list TaskModel.t) (old : TaskModel.t)
      (u : TaskUpdate.t) (now : Z) :
  find (id_eq task_id) rows = Some old ->
  find (id_eq task_id) (rewritten rows (updated old u now)) = Some (updated old u now).
Proof.
  intros Hfind. rewrite <- (find_id _ _ _ Hfind) at 1.
  change (TaskModel.id old) with (TaskModel.id (updated old u now)) at 1.
  apply (find_rewritten task_id rows old); [exact Hfind | reflexivity].
Qed.

Lemma not_null_from_attributes (o : TaskModel.t) :
  not_null o = true -> exists t, Task_from_attributes o = Some t.
Proof.
  unfold not_null, Task_from_attributes.
  destruct (TaskModel.title o), (TaskModel.status o), (TaskModel.priority o);
    try discriminate.
  intros _. eexists. reflexivity.
Qed.

Lemma dict_get_default_twice {A : Type} (f : field A) (x : option A) :
  dict_get_default f (dict_get_default f x) = dict_get_default f x.
Proof. now destruct f. Qed.

Lemma updated_twice (o : TaskModel.t) (u : TaskUpdate.t) (now1 now2 : Z) :
  updated (updated o u now1) u now2 = updated o u now2.
Proof.
  unfold updated. cbn [TaskModel.id TaskModel.title TaskModel.description
    TaskModel.status TaskModel.priority TaskModel.assignee TaskModel.due_date
    TaskModel.created_at]. now rewrite !dict_get_default_twice.
Qed.

Lemma from_attributes_later (o : TaskModel.t) (u : TaskUpdate.t) (now1 now2 : Z)
      (t : Task.t) :
  Task_from_attributes (updated o u now1) = Some t ->
  Task_from_attributes (updated o u now2) = Some (touched t now2).
Proof.
  unfold Task_from_attributes, updated. cbn [TaskModel.id TaskModel.title
    TaskModel.description TaskModel.status TaskModel.priority TaskModel.assignee
    TaskModel.due_date TaskModel.created_at TaskModel.updated_at].
  destruct (dict_get_default (TaskUpdate.title u) (TaskModel.title o)); [|discriminate].
  destruct (dict_get_default (TaskUpdate.status u) (TaskModel.status o)); [|discriminate].
  destruct (dict_get_default (TaskUpdate.priority u) (TaskModel.priority o)); [|discriminate].
  intros H. injection H as <-. reflexivity.
Qed.

(** X6.  An updated task can be read back: after an Update answered 200, a
    Get on the same id is answered 200 with the very record the Update
    returned. *)
Theorem update_then_get (task_id : str) (body : Body.t) (now : Z)
        (rows : list TaskModel.t) (new : Task.t) (s' : Session) :
  PUT_task task_id body now (up rows) = (Ok 200 new, s') ->
  GET_task task_id s' = (Ok 200 new, s').
Proof.
  intros H. destruct (PUT_task_Ok _ _ _ _ _ _ H) as (u & old & _ & Hfind & _ & Ht & ->).
  unfold GET_task, respond. rewrite get_task_up, (find_updated _ _ _ u now Hfind).
  now rewrite Ht.
Qed.

(** X6 on the scenario of a changed title. *)
Lemma update_then_get_example :
  let o := TaskModel.mk (py "u1") (Some (py "Titre Original")) None (Some TODO)
                        (Some MEDIUM) None None 10 10 in
  let body := Body.mk (Value (py "Nouveau Titre")) Missing Missing Missing Missing Missing in
  exists new s', PUT_task (py "u1") body 20 (up [o]) = (Ok 200 new, s')
                 /\ GET_task (py "u1") s' = (Ok 200 new, s')
                 /\ Task.title new = py "Nouveau Titre".
Proof.
  intros o body. do 2 eexists. split; [reflexivity|].
  split; [apply (update_then_get (py "u1") body 20 [o]); reflexivity | reflexivity].
Defined.

(** X7.  An Update is idempotent but for the time stamp: when an Update was
    answered 200, sending the same body to the same id again is answered 200
    with the same record, in which only [updated_at] is the new reading of
    the clock. *)
Theorem update_task_twice (task_id : str) (body : Body.t) (now1 now2 : Z)
        (rows : list TaskModel.t) (t1 : Task.t) (s1 : Session) :
  PUT_task task_id body now1 (up rows) = (Ok 200 t1, s1) ->
  exists s2, PUT_task task_id body now2 s1 = (Ok 200 (touched t1 now2), s2).
Proof.
  intros H. destruct (PUT_task_Ok _ _ _ _ _ _ H) as (u & old & Hv & Hfind & Hnn & Ht & ->).
  unfold PUT_task, respond. rewrite Hv, update_task_up.
  rewrite (find_updated _ _ _ u now1 Hfind), (validated_title_not_empty _ _ Hv).
  rewrite updated_twice.
  assert (Hnn2 : not_null (updated old u now2) = true) by exact Hnn.
  rewrite Hnn2, (from_attributes_later _ _ _ now2 _ Ht).
  eexists. reflexivity.
Qed.

(** X7 on the scenario of a status set to done, twice. *)
Lemma update_task_twice_example :
  let o := TaskModel.mk (py "u1") (Some (py "Test")) None (Some TODO)
                        (Some MEDIUM) None None 10 10 in
  let done := Body.mk Missing Missing (Value (py "done")) Missing Missing Missing in
  exists t1 s1 s2,
    PUT_task (py "u1") done 20 (up [o]) = (Ok 200 t1, s1)
    /\ PUT_task (py "u1") done 30 s1 = (Ok 200 (touched t1 30), s2)
    /\ Task.status (touched t1 30) = DONE.
Proof.
  intros o done.
  pose (t1 := Task.mk (py "u1") (py "Test") None DONE MEDIUM None None 10 20).
  pose (s1 := up [TaskModel.mk (py "u1") (Some (py "Test")) None (Some DONE)
                               (Some MEDIUM) None None 10 20]).
  destruct (update_task_twice (py "u1") done 20 30 [o] t1 s1 eq_refl) as (s2 & H2).
  exists t1, s1, s2. split; [reflexivity|]. split; [exact H2 | reflexivity].
Defined.



(* ========================================================================= *)
(** ** Frame and failure behaviour of the endpoints *)
(* ========================================================================= *)

Lemma id_eq_other (other : str) (o : TaskModel.t) :
  TaskModel.id o <> other -> id_eq other o = false.
Proof.
  intros H. unfold id_eq. destruct (str_eqb (TaskModel.id o) other) eqn:E;
    [|reflexivity].
  now apply str_eqb_eq in E.
Qed.

Lemma find_appended_other (other : str) (rows : list TaskModel.t) (o : TaskModel.t) :
  TaskModel.id o <> other ->
  find (id_eq other) (rows ++ [o]) = find (id_eq other) rows.
Proof.
  intros H. induction rows as [|r rows IH]; simpl.
  - now rewrite (id_eq_other _ _ H).
  - now rewrite IH.
Qed.

Lemma find_rewritten_other (other : str) (rows : list TaskModel.t) (n : TaskModel.t) :
  TaskModel.id n <> other ->
  find (id_eq other) (rewritten rows n) = find (id_eq other) rows.
Proof.
  intros H. unfold rewritten. induction rows as [|r rows IH]; simpl; [reflexivity|].
  rewrite IH. destruct (id_eq (TaskModel.id n) r) eqn:E; [|reflexivity].
  rewrite (id_eq_other _ _ H).
  apply str_eqb_eq in E. rewrite id_eq_other; [reflexivity | congruence].
Qed.

Lemma find_filter_other (other task_id : str) (rows : list TaskModel.t) :
  task_id <> other ->
  find (id_eq other) (filter (fun r => negb (id_eq task_id r)) rows)
  = find (id_eq other) rows.
Proof.
  intros H. induction rows as [|r rows IH]; simpl; [reflexivity|].
  destruct (id_eq task_id r) eqn:E; simpl.
  - apply str_eqb_eq in E. rewrite id_eq_other; [exact IH | congruence].
  - now rewrite IH.
Qed.

(** X9.  A request does not touch the tasks of other ids: under any schedule
    of connection faults, the task found under an id is the same before and
    after any request that does not write under that id, so a Create, an
    Update or a Delete addressed to another id, and every read. *)
Theorem other_tasks_untouched (s : Session) (r : request) (other : str) :
  target r <> Some other ->
  find (id_eq other) (tasks (serve s r)) = find (id_eq other) (tasks s).
Proof.
  intros Hother.
  destruct r as [| st pr a | task_id | body now uuid4 | task_id body now | task_id];
    try (table_unchanged; reflexivity); unfold serve; cbn [target] in Hother.
  - apply (POST_tasks_tasks (fun rows => find (id_eq other) rows = _));
      [reflexivity|].
    intros td _ _. apply find_appended_other. simpl. congruence.
  - apply (PUT_task_tasks (fun rows => find (id_eq other) rows = _));
      [reflexivity|].
    intros u old _ Hfind _. apply find_rewritten_other. simpl.
    rewrite (find_id _ _ _ Hfind). congruence.
  - apply (DELETE_task_tasks (fun rows => find (id_eq other) rows = _));
      [reflexivity|].
    apply find_filter_other. congruence.
Qed.

(** X9 on a store with two tasks, one of which is deleted while the
    connection fails later on. *)
Lemma other_tasks_untouched_example :
  let a := TaskModel.mk (py "u1") (Some (py "Sample 1")) None (Some TODO)
                        (Some LOW) None None 10 10 in
  let b := TaskModel.mk (py "u2") (Some (py "Sample 2")) None (Some DONE)
                        (Some HIGH) None None 11 11 in
  let s := mkSession [a; b] [None; None; Some (py "timeout")] in
  find (id_eq (py "u2")) (tasks (serve s (Delete_request (py "u1")))) = Some b
  /\ tasks (serve s (Delete_request (py "u1"))) = [b].
Proof.
  intros a b s. split; [|reflexivity].
  rewrite (other_tasks_untouched s (Delete_request (py "u1")) (py "u2")).
  - reflexivity.
  - simpl. intros H. injection H as H. vm_compute in H. discriminate.
Defined.

(** X10.  On a reachable store a write is all or nothing: whenever a Create,
    an Update or a Delete is answered with an error, whatever its status,
    the session is left exactly as it was. *)
Theorem refused_writes_change_nothing (rows : list TaskModel.t) :
  (forall body now uuid4 status_code e s',
     POST_tasks body now uuid4 (up rows) = (Failed status_code e, s') -> s' = up rows)
  /\ (forall task_id body now status_code e s',
     PUT_task task_id body now (up rows) = (Failed status_code e, s') -> s' = up rows)
  /\ (forall task_id status_code e s',
     DELETE_task task_id (up rows) = (Failed status_code e, s') -> s' = up rows).
Proof.
  split; [|split].
  - intros body now uuid4 c e s'.
    destruct (validate_TaskCreate body) as [td|] eqn:Hv.
    + rewrite (POST_tasks_valid _ _ _ _ _ Hv).
      destruct (blank (TaskCreate.title td)); [now intros H; injection H|].
      destruct (known uuid4 rows); [now intros H; injection H | discriminate].
    + unfold POST_tasks. rewrite Hv. now intros H; injection H.
  - intros task_id body now c e s'. unfold PUT_task.
    destruct (validate_TaskUpdate body) as [u|] eqn:Hv;
      [|now intros H; injection H].
    unfold respond. rewrite update_task_up.
    destruct (find (id_eq task_id) rows) as [old|]; [|now intros H; injection H].
    destruct (is_empty_string _); [now intros H; injection H|].
    destruct (not_null (updated old u now)) eqn:Hnn; [|now intros H; injection H].
    destruct (not_null_from_attributes _ Hnn) as (t & ->). discriminate.
  - intros task_id c e s'. unfold DELETE_task, respond. rewrite delete_task_up.
    destruct (find (id_eq task_id) rows); [discriminate | now intros H; injection H].
Qed.

(** X10 on a Create whose generated id is already taken and an Update that
    sets the title to [null]: both are answered 500 and change nothing. *)
Lemma refused_writes_change_nothing_example :
  let o := TaskModel.mk (py "u1") (Some (py "Report")) None (Some TODO)
                        (Some MEDIUM) None None 10 10 in
  let create := Body.mk (Value (py "Test")) Missing Missing Missing Missing Missing in
  let no_title := Body.mk Null Missing Missing Missing Missing Missing in
  snd (POST_tasks create 20 (py "u1") (up [o])) = up [o]
  /\ fst (POST_tasks create 20 (py "u1") (up [o])) = Failed 500 IntegrityError
  /\ snd (PUT_task (py "u1") no_title 20 (up [o])) = up [o]
  /\ fst (PUT_task (py "u1") no_title 20 (up [o])) = Failed 500 IntegrityError.
Proof.
  intros o create no_title.
  destruct (refused_writes_change_nothing [o]) as (Hpost & Hput & _).
  split; [exact (Hpost create 20 (py "u1") _ _ _ eq_refl)|].
  split; [reflexivity|].
  split; [exact (Hput (py "u1") no_title 20 _ _ _ eq_refl) | reflexivity].
Defined.

(** X11.  Reading makes one call to the database and never writes: under any
    schedule of connection faults, a List and a Get leave the table as it
    is; when their call meets a fault they are answered 500 with that error,
    and otherwise they are answered as on a reachable store. *)
Theorem reads_under_faults (s : Session) :
  (forall status priority assignee,
     GET_tasks status priority assignee s =
     (match next_fault 1 (faults s) with
      | Some msg => Failed 500 (OperationalError msg)
      | None => fst (GET_tasks status priority assignee (up (tasks s)))
      end,
      mkSession (tasks s) (tl (faults s))))
  /\ (forall task_id,
     GET_task task_id s =
     (match next_fault 1 (faults s) with
      | Some msg => Failed 500 (OperationalError msg)
      | None => fst (GET_task task_id (up (tasks s)))
      end,
      mkSession (tasks s) (tl (faults s)))).
Proof.
  destruct s as [rows [|[msg|] f]]; split; intros;
    unfold GET_tasks, GET_task, respond, get_tasks, get_task, all, first, bind,
      execute, table, ret, raise, up; cbn [faults tasks next_fault tl fst];
    try reflexivity;
    first [ now destruct (Task_list_from_attributes _)
          | destruct (find _ rows); [|reflexivity];
            now destruct (Task_from_attributes _) ].
Qed.

(** X12.  The endpoints that write do not catch the failures of the store:
    when the first call to the database meets a connection fault, an Update
    and a Delete, and a Create whose body passed validation and the title
    test, are answered 500 with that error and leave the table as it is. *)
Theorem writes_surface_connection_faults (rows : list TaskModel.t) (msg : str)
        (f : list (option str)) :
  let s := mkSession rows (Some msg :: f) in
  let failed := (Failed 500 (OperationalError msg), mkSession rows f) in
  (forall task_id body now updates,
     validate_TaskUpdate body = Some updates ->
     PUT_task task_id body now s = failed)
  /\ (forall task_id, DELETE_task task_id s = (Failed 500 (OperationalError msg),
                                               mkSession rows f))
  /\ (forall body now uuid4 task_data,
     validate_TaskCreate body = Some task_data ->
     blank (TaskCreate.title task_data) = false ->
     POST_tasks body now uuid4 s = failed).
Proof.
  intros s failed. split; [|split].
  - intros task_id body now u Hv. unfold PUT_task. rewrite Hv. reflexivity.
  - intros task_id. reflexivity.
  - intros body now uuid4 td Hv Hb. unfold POST_tasks, respond, create_task.
    rewrite Hv, title_test_is_blank, Hb. reflexivity.
Qed.

(** X12 on a store with one task. *)
Lemma writes_surface_connection_faults_example :
  let o := TaskModel.mk (py "u1") (Some (py "Report")) None (Some TODO)
                        (Some MEDIUM) None None 10 10 in
  let s := mkSession [o] [Some (py "connection refused")] in
  let done := Body.mk Missing Missing (Value (py "done")) Missing Missing Missing in
  let create := Body.mk (Value (py "Test")) Missing Missing Missing Missing Missing in
  PUT_task (py "u1") done 20 s
  = (Failed 500 (OperationalError (py "connection refused")), up [o])
  /\ POST_tasks create 20 (py "u2") s
     = (Failed 500 (OperationalError (py "connection refused")), up [o]).
Proof.
  intros o s done create.
  destruct (writes_surface_connection_faults [o] (py "connection refused") [])
    as (Hput & _ & Hpost).
  split; [exact (Hput (py "u1") done 20 _ eq_refl)|].
  exact (Hpost create 20 (py "u2") _ eq_refl eq_refl).
Defined.

(** X13.  Under any schedule of connection faults and whatever its body, an
    Update neither adds nor removes a task nor changes an id: the ids of the
    table are the same before and after. *)
Theorem update_task_keeps_ids (task_id : str) (body : Body.t) (now : Z) (s : Session) :
  ids (tasks (snd (PUT_task task_id body now s))) = ids (tasks s).
Proof.
  apply (PUT_task_tasks (fun rows => ids rows = ids (tasks s))); [reflexivity|].
  intros u old _ _ _. apply ids_rewritten.
Qed.

(* ========================================================================= *)
(** ** The two request models, and the reads of a reachable store *)
(* ========================================================================= *)



Lemma well_formed_not_null (o : TaskModel.t) : well_formed o -> not_null o = true.
Proof.
  intros ((t & Ht & _) & Hs & Hp). unfold not_null. rewrite Ht.
  destruct (TaskModel.status o); [|congruence].
  destruct (TaskModel.priority o); [reflexivity | congruence].
Qed.

(** X15.  In every reachable state of the table, read on a reachable store:
    a Get on a stored id is answered 200 with a task of that id, a List
    without filters is answered 200 with as many tasks as the table has
    rows, and the health check reports that same number. *)
Theorem reads_of_reachable_store (rows : list TaskModel.t) :
  reachable rows ->
  (forall task_id, known task_id rows = true ->
     exists t, GET_task task_id (up rows) = (Ok 200 t, up rows)
               /\ Task.id t = task_id)
  /\ exists ts, GET_tasks None None None (up rows) = (Ok 200 ts, up rows)
                /\ List.length ts = List.length rows
                /\ GET_health (up rows) = (Ok 200 (healthy (List.length ts)), up rows).
Proof.
  intros (history & f & Hrun).
  destruct (run_consistent history (mkSession [] f)) as [_ Hwf].
  { split; constructor. }
  rewrite Hrun in Hwf. clear history f Hrun.
  assert (Hnn : Forall (fun o => not_null o = true) rows).
  { revert Hwf. apply Forall_impl. exact well_formed_not_null. }
  split.
  - intros task_id Hk. destruct (find_id_known _ _ Hk) as (o & Hfind & Hid & Hin).
    destruct (not_null_from_attributes o) as (t & Ht).
    { now apply (proj1 (Forall_forall _ _) Hnn). }
    exists t. split.
    + unfold GET_task, respond. now rewrite get_task_up, Hfind, Ht.
    + unfold Task_from_attributes in Ht.
      destruct (TaskModel.title o), (TaskModel.status o), (TaskModel.priority o);
        try discriminate.
      injection Ht as <-. exact Hid.
  - destruct (Task_list_from_attributes_total rows Hnn) as (ts & Hts & Hlen).
    exists ts. split; [|split; [exact Hlen|]].
    + unfold GET_tasks, respond. rewrite get_tasks_up. simpl.
      now rewrite filter_query, Hts.
    + unfold GET_health, respond, health_check, try_except, bind, count, bind,
        execute, table, ret, up. cbn [faults tasks].
      now rewrite filter_query, Hlen.
Qed.

(** X15 on the table two creations lead to. *)
Lemma reads_of_reachable_store_example :
  let create := Body.mk (Value (py "Test")) Missing Missing Missing Missing Missing in
  let history := [Create_request create 10 (py "u1");
                  Create_request create 11 (py "u2")] in
  let rows := tasks (run history (mkSession [] [])) in
  (exists t, GET_task (py "u2") (up rows) = (Ok 200 t, up rows)
             /\ Task.id t = py "u2")
  /\ GET_health (up rows) = (Ok 200 (healthy 2), up rows).
Proof.
  intros create history rows.
  assert (Hreach : reachable rows) by (exists history, []; reflexivity).
  destruct (reads_of_reachable_store rows Hreach) as (Hget & _).
  split; [exact (Hget (py "u2") eq_refl) | reflexivity].
Defined.

(* ========================================================================= *)
(** ** The configured origins *)
(* ========================================================================= *)

Lemma lstrip_no_leading_space (s : str) : leading_space (lstrip s) = false.
Proof.
  destruct (lstrip_head s) as [->|(c & r & -> & Hc)]; [reflexivity | exact Hc].
Qed.

Lemma lstrip_suffix (s : str) : exists p, s = p ++ lstrip s.
Proof.
  induction s as [|c s (p & IH)]; simpl; [now exists []|].
  destruct (isspace c); [|now exists []].
  exists (c :: p). simpl. now rewrite <- IH.
Qed.

Lemma rstrip_prefix (s : str) : exists q, s = rstrip s ++ q.
Proof.
  unfold rstrip. destruct (lstrip_suffix (rev s)) as (p & Hp).
  exists (rev p). rewrite <- rev_app_distr, <- Hp. now rewrite rev_involutive.
Qed.

Lemma strip_infix (s : str) : exists p q, s = p ++ strip s ++ q.
Proof.
  unfold strip. destruct (lstrip_suffix s) as (p & Hp).
  destruct (rstrip_prefix (lstrip s)) as (q & Hq).
  exists p, q. now rewrite <- Hq.
Qed.

Lemma strip_trimmed (s : str) : trimmed (strip s).
Proof.
  unfold trimmed, strip. split.
  - destruct (rstrip_prefix (lstrip s)) as (q & Hq).
    pose proof (lstrip_no_leading_space s) as Hl. rewrite Hq in Hl.
    now destruct (rstrip (lstrip s)).
  - unfold rstrip. rewrite rev_involutive. apply lstrip_no_leading_space.
Qed.

Lemma lstrip_fixed (s : str) : leading_space s = false -> lstrip s = s.
Proof. destruct s as [|c s]; simpl; [reflexivity|]. now intros ->. Qed.

Lemma strip_fixed (s : str) : trimmed s -> strip s = s.
Proof.
  intros [Hl Hr]. unfold strip, rstrip.
  now rewrite (lstrip_fixed _ Hl), (lstrip_fixed _ Hr), rev_involutive.
Qed.

Lemma split_cons (sep : N) (s : str) : exists piece pieces, split sep s = piece :: pieces.
Proof.
  destruct s as [|c s]; simpl; [now exists [], []|].
  destruct (N.eqb c sep); [now eexists; eexists|].
  destruct (split sep s); now eexists; eexists.
Qed.

Lemma split_length (sep : N) (s : str) :
  List.length (split sep s) = S (occurrences sep s).
Proof.
  induction s as [|c s IH]; simpl; [reflexivity|].
  destruct (N.eqb c sep); simpl; [now rewrite IH|].
  destruct (split_cons sep s) as (p & ps & E). rewrite E in *. exact IH.
Qed.

Lemma split_no_separator (sep : N) (s : str) :
  Forall (fun piece => ~ In sep piece) (split sep s).
Proof.
  induction s as [|c s IH]; simpl.
  - constructor; [intros [] | constructor].
  - destruct (N.eqb c sep) eqn:E.
    + constructor; [intros [] | exact IH].
    + destruct (split sep s) as [|p ps].
      * constructor; [|constructor]. intros [->|[]].
        now rewrite N.eqb_refl in E.
      * inversion IH as [|? ? Hp Hps]; subst. constructor; [|exact Hps].
        intros [->|Hin]; [now rewrite N.eqb_refl in E | now apply Hp].
Qed.

(** X16.  The origins allowed for cross-origin requests are read from the
    variable [CORS_ORIGINS], or from the default when it is not set: there
    is one origin more than the value has commas, so never none; every
    origin is trimmed, without a white space character at either end, and
    trimming it again changes nothing; no origin contains a comma; and each
    is a piece of the value between two commas, with white space taken off
    its ends only. *)
Theorem cors_origins_split_and_trimmed (CORS_ORIGINS : option str) :
  let value := getenv CORS_ORIGINS (py "http://localhost:5173") in
  List.length (cors_origins CORS_ORIGINS) = S (occurrences comma value)
  /\ Forall (fun origin => trimmed origin /\ strip origin = origin
                           /\ ~ In comma origin)
            (cors_origins CORS_ORIGINS)
  /\ Forall2 (fun piece origin => exists p q, piece = p ++ origin ++ q
                                          /\ forallb isspace p = true
                                          /\ forallb isspace q = true)
             (split comma value) (cors_origins CORS_ORIGINS).
Proof.
  intros value. unfold cors_origins. fold value. split; [|split].
  - now rewrite length_map, split_length.
  - apply Forall_map. generalize (split_no_separator comma value).
    apply Forall_impl. intros piece Hpiece.
    split; [apply strip_trimmed|]. split; [apply strip_fixed, strip_trimmed|].
    intros Hin. apply Hpiece.
    destruct (strip_infix piece) as (p & q & E). rewrite E.
    apply in_or_app. right. apply in_or_app. now left.
  - induction (split comma value) as [|piece pieces IH]; simpl; constructor;
      [|exact IH].
    clear IH. unfold strip, rstrip.
    assert (Hl : forall s : str, exists p, s = p ++ lstrip s /\ forallb isspace p = true).
    { induction s as [|c s (p & E & Hp)]; simpl; [now exists []|].
      destruct (isspace c) eqn:Ec; [|now exists []].
      exists (c :: p). simpl. rewrite Ec, Hp. split; [now rewrite <- E | reflexivity]. }
    destruct (Hl piece) as (p & Ep & Hp).
    destruct (Hl (rev (lstrip piece))) as (q & Eq & Hq).
    exists p, (rev q). split; [|split; [exact Hp | now rewrite forallb_rev]].
    rewrite <- rev_app_distr, <- Eq, rev_involutive. exact Ep.
Qed.

(** X16 on a value naming two origins, with white space after the comma. *)
Lemma cors_origins_split_and_trimmed_example :
  cors_origins (Some (py "http://localhost:5173, https://taskflow.example "))
  = [py "http://localhost:5173"; py "https://taskflow.example"]
  /\ cors_origins None = [py "http://localhost:5173"]
  /\ List.length (cors_origins (Some [])) = 1%nat.
Proof.
  split; [reflexivity|]. split; [reflexivity|].
  destruct (cors_origins_split_and_trimmed (Some [])) as (H & _).
  exact H.
Defined.

(* ========================================================================= *)
(** ** Listing *)
(* ========================================================================= *)

Lemma Task_list_from_attributes_app (l : list TaskModel.t) (o : TaskModel.t)
      (ts : list Task.t) (t : Task.t) :
  Task_list_from_attributes l = Some ts ->
  Task_from_attributes o = Some t ->
  Task_list_from_attributes (l ++ [o]) = Some (ts ++ [t]).
Proof.
  revert ts. induction l as [|x l IH]; simpl; intros ts Hl Ho.
  - injection Hl as <-. now rewrite Ho.
  - destruct (Task_from_attributes x) as [tx|]; [|discriminate].
    destruct (Task_list_from_attributes l) as [tl|]; [|discriminate].
    injection Hl as <-. now rewrite (IH tl eq_refl Ho).
Qed.

(** X17.  A created task shows in the listing: when a List without filters
    was answered 200 before a Create answered 201, it is answered 200 after
    it with one task more, among them the record the Create returned, and
    with every task it returned before. *)
Theorem create_then_list (body : Body.t) (now : Z) (uuid4 : str)
        (rows : list TaskModel.t) (t : Task.t) (s' : Session) (ts : list Task.t) :
  GET_tasks None None None (up rows) = (Ok 200 ts, up rows) ->
  POST_tasks body now uuid4 (up rows) = (Ok 201 t, s') ->
  exists ts', GET_tasks None None None s' = (Ok 200 ts', s')
              /\ List.length ts' = S (List.length ts)
              /\ In t ts'
              /\ incl ts ts'.
Proof.
  intros Hlist Hpost.
  destruct (POST_tasks_Ok _ _ _ _ _ _ Hpost) as (td & _ & _ & _ & Ht & ->).
  unfold GET_tasks, respond in Hlist |- *. rewrite get_tasks_up in Hlist |- *.
  simpl in Hlist |- *. rewrite filter_query in Hlist |- *.
  destruct (Task_list_from_attributes rows) as [l|] eqn:Hl; [|discriminate].
  injection Hlist as <-.
  rewrite (Task_list_from_attributes_app _ _ _ _ Hl Ht).
  exists (l ++ [t]). split; [reflexivity|].
  split; [rewrite length_app; simpl; lia|].
  split; [apply in_or_app; right; now left | now apply incl_appl].
Qed.

(** X17 on the scenario of two tasks created one after the other. *)
Lemma create_then_list_example :
  let create (title : str) :=
    Body.mk (Value title) Missing Missing Missing Missing Missing in
  exists t1 s1 t2 s2 ts,
    POST_tasks (create (py "Tache 1")) 10 (py "u1") (up []) = (Ok 201 t1, s1)
    /\ POST_tasks (create (py "Tache 2")) 11 (py "u2") s1 = (Ok 201 t2, s2)
    /\ GET_tasks None None None s2 = (Ok 200 ts, s2)
    /\ List.length ts = 2%nat.
Proof.
  intros create.
  pose (o1 := TaskModel.mk (py "u1") (Some (py "Tache 1")) None (Some TODO)
                           (Some MEDIUM) None None 10 10).
  pose (t1 := Task.mk (py "u1") (py "Tache 1") None TODO MEDIUM None None 10 10).
  destruct (create_then_list (create (py "Tache 2")) 11 (py "u2") [o1] _ _ [t1]
              eq_refl eq_refl) as (ts & Hlist & Hlen & _).
  do 4 eexists. exists ts.
  split; [reflexivity|]. split; [reflexivity|]. split; [exact Hlist | exact Hlen].
Defined.

Lemma status_partition (rows : list TaskModel.t) :
  Forall (fun o => TaskModel.status o <> None) rows ->
  (List.length (filter (satisfies (Some TODO) None None) rows)
   + List.length (filter (satisfies (Some IN_PROGRESS) None None) rows)
   + List.length (filter (satisfies (Some DONE) None None) rows))%nat
  = List.length rows.
Proof.
  induction 1 as [|o rows Ho _ IH]; [reflexivity|].
  unfold satisfies, status_eq in *. simpl.
  destruct (TaskModel.status o) as [[| |]|]; [| | |congruence]; simpl; lia.
Qed.

(** X18.  In every reachable state of the table, the three status filters
    partition the tasks: the numbers of tasks that [get_tasks] returns for
    todo, for in_progress and for done add up to the number of tasks, and no
    task is returned under two of them. *)
Theorem status_filters_partition (rows : list TaskModel.t) :
  reachable rows ->
  exists todo in_progress done,
    get_tasks (Some TODO) None None (up rows) = (inr todo, up rows)
    /\ get_tasks (Some IN_PROGRESS) None None (up rows) = (inr in_progress, up rows)
    /\ get_tasks (Some DONE) None None (up rows) = (inr done, up rows)
    /\ (List.length todo + List.length in_progress + List.length done)%nat
       = List.length rows
    /\ (forall o, In o todo -> ~ In o in_progress /\ ~ In o done)
    /\ (forall o, In o in_progress -> ~ In o done).
Proof.
  intros (history & f & Hrun).
  destruct (run_consistent history (mkSession [] f)) as [_ Hwf].
  { split; constructor. }
  rewrite Hrun in Hwf. clear history f Hrun.
  do 3 eexists. rewrite !get_tasks_up. simpl effective.
  split; [reflexivity|]. split; [reflexivity|]. split; [reflexivity|].
  split.
  - apply status_partition. revert Hwf. apply Forall_impl.
    now intros o (_ & Hs & _).
  - split; [intros o Hin; split | intros o Hin]; intros Hin';
      apply filter_In in Hin as [_ Hin]; apply filter_In in Hin' as [_ Hin'];
      unfold satisfies, status_eq in Hin, Hin';
      destruct (TaskModel.status o) as [[| |]|]; discriminate.
Qed.

(** X18 on the table a creation with status todo and one with status done
    lead to. *)
Lemma status_filters_partition_example :
  let create (status : str) :=
    Body.mk (Value (py "Test")) Missing (Value status) Missing Missing Missing in
  let history := [Create_request (create (py "todo")) 10 (py "u1");
                  Create_request (create (py "done")) 11 (py "u2")] in
  let rows := tasks (run history (mkSession [] [])) in
  exists todo in_progress done : list TaskModel.t,
    get_tasks (Some DONE) None None (up rows) = (inr done, up rows)
    /\ (List.length todo + List.length in_progress + List.length done)%nat = 2%nat
    /\ List.length done = 1%nat.
Proof.
  intros create history rows.
  assert (Hreach : reachable rows) by (exists history, []; reflexivity).
  destruct (status_filters_partition rows Hreach)
    as (todo & in_progress & done & _ & _ & Hdone & Hsum & _).
  exists todo, in_progress, done.
  split; [exact Hdone|]. split; [exact Hsum|].
  vm_compute in Hdone. injection Hdone as <-. reflexivity.
Defined.
